(** * py-evm: block and transaction validation, block assembly, finalization

    A shallow embedding of
      - evm/vm/forks/frontier/validation.py
      - evm/vm/base.py                      (class VM)
      - eth/vm/forks/petersburg/__init__.py (class PetersburgVM)
      - eth/vm/forks/petersburg/constants.py
    Python objects become records, dictionaries become [gmap]s, raised
    exceptions become the [Raise] case of [result], and a method that mutates
    [self] or an argument returns the new value next to its result. *)

From Stdlib Require Import ZArith List String Bool Lia.
From stdpp Require Import base option gmap strings list fin_maps.

Open Scope string_scope.
Open Scope Z_scope.

#[global] Set Warnings "-clear-no-such-hyp".

(** ** Python values, exceptions and the result of a call *)

Module Py.

(** Python [bytes]: a sequence of 8-bit characters. *)
Abbreviation bytes := string (only parsing).

(** Values that are handed to [str.format] when an error message is built. *)
Inductive pyval :=
| VInt (z : Z)
| VBytes (b : bytes)
| VStr (s : string)
| VObject (cls : string)
| VNone.

(** An exception carries the message template of the [raise] statement and
    the arguments given to [.format], in order. *)
Inductive exception :=
| ValidationError (template : string) (args : list pyval)
| AttributeError (template : string) (args : list pyval)
| TypeError (template : string) (args : list pyval)
| BlockNotFound (template : string) (args : list pyval)
| IndexError (template : string).

Inductive result (A : Type) :=
| Ok (a : A)
| Raise (e : exception).
Arguments Ok {A} a.
Arguments Raise {A} e.

Definition bind {A B} (r : result A) (k : A -> result B) : result B :=
  match r with
  | Ok a => k a
  | Raise e => Raise e
  end.

Definition is_ok {A} (r : result A) : bool :=
  match r with Ok _ => true | Raise _ => false end.

Definition is_validation_error {A} (r : result A) : bool :=
  match r with Raise (ValidationError _ _) => true | _ => false end.

(** [for x in xs: f(x)], stopping at the first exception. *)
Fixpoint for_each {A} (f : A -> result unit) (xs : list A) : result unit :=
  match xs with
  | [] => Ok tt
  | x :: rest => bind (f x) (fun _ => for_each f rest)
  end.

(** Attribute lookup [obj.name] on an object of class [cls] whose
    attributes are [attrs]. *)
Definition getattr (cls : string) (attrs : list (string * pyval)) (name : string)
  : result pyval :=
  match List.find (fun kv => String.eqb (fst kv) name) attrs with
  | Some kv => Ok (snd kv)
  | None => Raise (AttributeError "'{0}' object has no attribute '{1}'"
                                  [VStr cls; VStr name])
  end.

End Py.
Import Py.

#[export] Instance pyval_eq_dec : EqDecision pyval.
Proof. solve_decision. Defined.

#[export] Instance result_ret : MRet result := @Ok.
#[export] Instance result_bind : MBind result := fun A B k r => Py.bind r k.

(** ** Headers, blocks, transactions and the backing store *)

Module Header.

(** Modelled from the spec: evm/rlp/headers.py is not among the sources.
    The field set of the BlockHeader (section 3), under the names the
    sources use for them ([uncle.block_number], [header.uncles_hash],
    the parameter list in the docstring of [pack_block]). *)
Record BlockHeader := mkHeader {
  parent_hash : bytes;
  uncles_hash : bytes;
  coinbase : bytes;
  state_root : bytes;
  transaction_root : bytes;
  receipt_root : bytes;
  bloom : Z;
  difficulty : Z;
  block_number : Z;
  gas_limit : Z;
  gas_used : Z;
  timestamp : Z;
  extra_data : bytes;
  mix_hash : bytes;
  nonce : bytes
}.

(** The names in [BlockHeader.fields], in order. *)
Definition field_names : list string :=
  ["parent_hash"; "uncles_hash"; "coinbase"; "state_root"; "transaction_root";
   "receipt_root"; "bloom"; "difficulty"; "block_number"; "gas_limit"; "gas_used";
   "timestamp"; "extra_data"; "mix_hash"; "nonce"].

(** The attributes of a header object, as [getattr] sees them. *)
Definition attributes (h : BlockHeader) : list (string * pyval) :=
  [("parent_hash", VBytes (parent_hash h)); ("uncles_hash", VBytes (uncles_hash h));
   ("coinbase", VBytes (coinbase h)); ("state_root", VBytes (state_root h));
   ("transaction_root", VBytes (transaction_root h));
   ("receipt_root", VBytes (receipt_root h)); ("bloom", VInt (bloom h));
   ("difficulty", VInt (difficulty h)); ("block_number", VInt (block_number h));
   ("gas_limit", VInt (gas_limit h)); ("gas_used", VInt (gas_used h));
   ("timestamp", VInt (timestamp h)); ("extra_data", VBytes (extra_data h));
   ("mix_hash", VBytes (mix_hash h)); ("nonce", VBytes (nonce h))].

Definition getattr (h : BlockHeader) (name : string) : result pyval :=
  Py.getattr "BlockHeader" (attributes h) name.

(** [setattr(header, key, value)] for a field name and a value of the
    field's type; [None] for any other pair, which the record cannot hold. *)
Definition setattr (h : BlockHeader) (key : string) (v : pyval) : option BlockHeader :=
  match v with
  | VBytes b =>
      if String.eqb key "parent_hash" then Some (mkHeader b (uncles_hash h) (coinbase h) (state_root h) (transaction_root h) (receipt_root h) (bloom h) (difficulty h) (block_number h) (gas_limit h) (gas_used h) (timestamp h) (extra_data h) (mix_hash h) (nonce h))
      else if String.eqb key "uncles_hash" then Some (mkHeader (parent_hash h) b (coinbase h) (state_root h) (transaction_root h) (receipt_root h) (bloom h) (difficulty h) (block_number h) (gas_limit h) (gas_used h) (timestamp h) (extra_data h) (mix_hash h) (nonce h))
      else if String.eqb key "coinbase" then Some (mkHeader (parent_hash h) (uncles_hash h) b (state_root h) (transaction_root h) (receipt_root h) (bloom h) (difficulty h) (block_number h) (gas_limit h) (gas_used h) (timestamp h) (extra_data h) (mix_hash h) (nonce h))
      else if String.eqb key "state_root" then Some (mkHeader (parent_hash h) (uncles_hash h) (coinbase h) b (transaction_root h) (receipt_root h) (bloom h) (difficulty h) (block_number h) (gas_limit h) (gas_used h) (timestamp h) (extra_data h) (mix_hash h) (nonce h))
      else if String.eqb key "transaction_root" then Some (mkHeader (parent_hash h) (uncles_hash h) (coinbase h) (state_root h) b (receipt_root h) (bloom h) (difficulty h) (block_number h) (gas_limit h) (gas_used h) (timestamp h) (extra_data h) (mix_hash h) (nonce h))
      else if String.eqb key "receipt_root" then Some (mkHeader (parent_hash h) (uncles_hash h) (coinbase h) (state_root h) (transaction_root h) b (bloom h) (difficulty h) (block_number h) (gas_limit h) (gas_used h) (timestamp h) (extra_data h) (mix_hash h) (nonce h))
      else if String.eqb key "extra_data" then Some (mkHeader (parent_hash h) (uncles_hash h) (coinbase h) (state_root h) (transaction_root h) (receipt_root h) (bloom h) (difficulty h) (block_number h) (gas_limit h) (gas_used h) (timestamp h) b (mix_hash h) (nonce h))
      else if String.eqb key "mix_hash" then Some (mkHeader (parent_hash h) (uncles_hash h) (coinbase h) (state_root h) (transaction_root h) (receipt_root h) (bloom h) (difficulty h) (block_number h) (gas_limit h) (gas_used h) (timestamp h) (extra_data h) b (nonce h))
      else if String.eqb key "nonce" then Some (mkHeader (parent_hash h) (uncles_hash h) (coinbase h) (state_root h) (transaction_root h) (receipt_root h) (bloom h) (difficulty h) (block_number h) (gas_limit h) (gas_used h) (timestamp h) (extra_data h) (mix_hash h) b)
      else None
  | VInt z =>
      if String.eqb key "bloom" then Some (mkHeader (parent_hash h) (uncles_hash h) (coinbase h) (state_root h) (transaction_root h) (receipt_root h) z (difficulty h) (block_number h) (gas_limit h) (gas_used h) (timestamp h) (extra_data h) (mix_hash h) (nonce h))
      else if String.eqb key "difficulty" then Some (mkHeader (parent_hash h) (uncles_hash h) (coinbase h) (state_root h) (transaction_root h) (receipt_root h) (bloom h) z (block_number h) (gas_limit h) (gas_used h) (timestamp h) (extra_data h) (mix_hash h) (nonce h))
      else if String.eqb key "block_number" then Some (mkHeader (parent_hash h) (uncles_hash h) (coinbase h) (state_root h) (transaction_root h) (receipt_root h) (bloom h) (difficulty h) z (gas_limit h) (gas_used h) (timestamp h) (extra_data h) (mix_hash h) (nonce h))
      else if String.eqb key "gas_limit" then Some (mkHeader (parent_hash h) (uncles_hash h) (coinbase h) (state_root h) (transaction_root h) (receipt_root h) (bloom h) (difficulty h) (block_number h) z (gas_used h) (timestamp h) (extra_data h) (mix_hash h) (nonce h))
      else if String.eqb key "gas_used" then Some (mkHeader (parent_hash h) (uncles_hash h) (coinbase h) (state_root h) (transaction_root h) (receipt_root h) (bloom h) (difficulty h) (block_number h) (gas_limit h) z (timestamp h) (extra_data h) (mix_hash h) (nonce h))
      else if String.eqb key "timestamp" then Some (mkHeader (parent_hash h) (uncles_hash h) (coinbase h) (state_root h) (transaction_root h) (receipt_root h) (bloom h) (difficulty h) (block_number h) (gas_limit h) (gas_used h) z (extra_data h) (mix_hash h) (nonce h))
      else None
  | _ => None
  end.

End Header.
Export Header (BlockHeader).

Module Chain.

Record Transaction := mkTransaction {
  tx_nonce : Z;
  tx_gas_price : Z;
  tx_gas : Z;
  tx_to : bytes;
  tx_value : Z;
  tx_data : bytes;
  tx_sender : bytes
}.

(** The keyword arguments of [Message(...)] in [execute_bytecode]. *)
Record Message := mkMessage {
  msg_gas : Z;
  msg_gas_price : Z;
  msg_to : bytes;
  msg_sender : bytes;
  msg_value : Z;
  msg_data : bytes;
  msg_code : bytes;
  msg_create_address : option bytes;
  msg_code_address : option bytes
}.

(** Modelled from the spec: Receipt (section 3), per-transaction cumulative
    gas_used, bloom, logs. *)
Record Receipt := mkReceipt {
  receipt_gas_used : Z;
  receipt_bloom : Z;
  receipt_logs : list bytes
}.

Record Block := mkBlock {
  header : BlockHeader;
  transactions : list Transaction;
  uncles : list BlockHeader
}.

Definition number (block : Block) : Z := Header.block_number (header block).

(** Modelled from the spec: genesis is the block with number 0
    (section 3); the block class is not among the sources. *)
Definition is_genesis (block : Block) : bool := number block =? 0.

(** Modelled from the spec: the backing store (section 6), a keyed store of
    entries by hash with an existence check and header lookup by hash.
    evm/db/chain.py is not among the sources. *)
Record ChainDB := mkChainDB {
  kv_store : gmap string string;
  headers : gmap string BlockHeader
}.

Definition db_exists (db : ChainDB) (key : bytes) : bool :=
  bool_decide (is_Some (kv_store db !! key)).

(** Modelled from the spec: header lookup by hash (evm/utils/db.py is not
    among the sources); a missing header is the BlockNotFound that
    [validate_uncle] and [get_prev_hashes] catch. *)
Definition get_block_header_by_hash (block_hash : bytes) (db : ChainDB)
  : result BlockHeader :=
  match headers db !! block_hash with
  | Some h => Ok h
  | None => Raise (BlockNotFound "No block with hash {0} found" [VBytes block_hash])
  end.

Definition get_parent_header (block_header : BlockHeader) (db : ChainDB)
  : result BlockHeader :=
  get_block_header_by_hash (Header.parent_hash block_header) db.

(** Modelled from the spec: the execution context (section 3): block
    number, timestamp, coinbase, difficulty, gas limit and the bounded
    list of ancestor hashes. *)
Record ExecutionContext := mkExecutionContext {
  ctx_coinbase : bytes;
  ctx_timestamp : Z;
  ctx_block_number : Z;
  ctx_difficulty : Z;
  ctx_gas_limit : Z;
  ctx_prev_hashes : list bytes
}.

Definition from_block_header (h : BlockHeader) (prev_hashes : list bytes)
  : ExecutionContext :=
  {| ctx_coinbase := Header.coinbase h; ctx_timestamp := Header.timestamp h;
     ctx_block_number := Header.block_number h; ctx_difficulty := Header.difficulty h;
     ctx_gas_limit := Header.gas_limit h; ctx_prev_hashes := prev_hashes |}.

End Chain.
Import Chain.

(** ** Accounts and the per-block state *)

Module State.

(** Modelled from the spec: the account view of the State (section 3):
    balance, nonce, code and storage keyed by address.  The state class
    itself is not among the sources. *)
Record Account := mkAccount {
  balance : Z;
  nonce : Z;
  code : bytes;
  storage : gmap Z Z
}.

Definition empty_account : Account :=
  {| balance := 0; nonce := 0; code := ""; storage := ∅ |}.

(** Modelled from the spec: the State (section 3) is built from a store,
    an execution context, a state root and the receipts; it owns a mutable
    account view, the gas_used counter, the gas_limit ceiling, the log of
    written store entries and a snapshot stack.  A snapshot is the depth of
    the stack when it was taken; the stack keeps the account views that
    were active at each snapshot. *)
Record VMState := mkVMState {
  chaindb : ChainDB;
  execution_context : ExecutionContext;
  state_root : bytes;
  receipts : list Receipt;
  state_db : gmap string Account;
  gas_used : Z;
  gas_limit : Z;
  writes : gmap string string;
  journal : list (gmap string Account)
}.

Definition with_state_db (st : VMState) (db : gmap string Account) : VMState :=
  {| chaindb := chaindb st; execution_context := execution_context st;
     state_root := state_root st; receipts := receipts st; state_db := db;
     gas_used := gas_used st; gas_limit := gas_limit st; writes := writes st;
     journal := journal st |}.

Definition with_journal (st : VMState) (j : list (gmap string Account)) : VMState :=
  {| chaindb := chaindb st; execution_context := execution_context st;
     state_root := state_root st; receipts := receipts st; state_db := state_db st;
     gas_used := gas_used st; gas_limit := gas_limit st; writes := writes st;
     journal := j |}.

Definition account_of (db : gmap string Account) (address : bytes) : Account :=
  default empty_account (db !! address).

Definition get_balance (db : gmap string Account) (address : bytes) : Z :=
  balance (account_of db address).

Definition get_nonce (db : gmap string Account) (address : bytes) : Z :=
  nonce (account_of db address).

Definition set_balance (db : gmap string Account) (address : bytes) (b : Z)
  : gmap string Account :=
  let a := account_of db address in
  <[address := {| balance := b; nonce := nonce a; code := code a; storage := storage a |}]> db.

Definition delta_balance (db : gmap string Account) (address : bytes) (delta : Z)
  : gmap string Account :=
  set_balance db address (get_balance db address + delta).

Definition increment_nonce (db : gmap string Account) (address : bytes)
  : gmap string Account :=
  let a := account_of db address in
  <[address := {| balance := balance a; nonce := nonce a + 1; code := code a; storage := storage a |}]> db.

(** Modelled from the spec: snapshot/revert is stack-discipline; reverting
    to snapshot S restores exactly the account view active when S was
    taken, whatever nested snapshots were taken afterwards. *)
Definition snapshot (st : VMState) : VMState * nat :=
  (with_journal st (journal st ++ [state_db st]), length (journal st)).

Definition revert (st : VMState) (snap : nat) : VMState :=
  match journal st !! snap with
  | Some db => with_journal (with_state_db st db) (take snap (journal st))
  | None => st
  end.

(** Modelled from the spec: existence check of a key in the backing store
    (section 6). *)
Definition is_key_exists (st : VMState) (key : bytes) : bool :=
  db_exists (chaindb st) key.

End State.
Import (notations) State.
Export State (VMState, Account).

(** ** evm/vm/forks/frontier/validation.py *)

Module Validation.

(** [validate_frontier_message] reads [gas], [gas_price], [sender] and
    [value] of its argument; it is called on messages and, through
    [validate_frontier_transaction], on transactions. *)
Class MessageLike (M : Type) := {
  gas : M -> Z;
  gas_price : M -> Z;
  sender : M -> bytes;
  value : M -> Z
}.

#[export] Instance Message_like : MessageLike Message :=
  {| gas := msg_gas; gas_price := msg_gas_price; sender := msg_sender; value := msg_value |}.

#[export] Instance Transaction_like : MessageLike Transaction :=
  {| gas := tx_gas; gas_price := tx_gas_price; sender := tx_sender; value := tx_value |}.

Definition err_afford_gas (address : bytes) : exception :=
  ValidationError "Sender account balance cannot afford txn gas: `{0}`" [VBytes address].
Definition err_afford_txn : exception :=
  ValidationError "Sender account balance cannot afford txn" [].
Definition err_gas_limit : exception :=
  ValidationError "Message exceeds gas limit" [].
Definition err_nonce : exception :=
  ValidationError "Invalid transaction nonce" [].

Definition validate_frontier_message `{MessageLike M} (vm_state : VMState) (message : M)
  : result unit :=
  let gas_cost := gas message * gas_price message in
  let sender_balance := State.get_balance (State.state_db vm_state) (sender message) in
  if sender_balance <? gas_cost then
    Raise (err_afford_gas (sender message))
  else
    let total_cost := value message + gas_cost in
    if sender_balance <? total_cost then
      Raise err_afford_txn
    else if State.gas_used vm_state + gas message >? State.gas_limit vm_state then
      Raise err_gas_limit
    else Ok tt.

Definition validate_frontier_transaction (vm_state : VMState) (transaction : Transaction)
  : result unit :=
  validate_frontier_message vm_state transaction ;;
  if negb (State.get_nonce (State.state_db vm_state) (tx_sender transaction)
           =? tx_nonce transaction) then
    Raise err_nonce
  else Ok tt.


(** The sender's balance and the cost of the gas, as the checks compare them. *)
Definition sender_balance `{MessageLike M} (st : VMState) (m : M) : Z :=
  State.get_balance (State.state_db st) (sender m).

Definition gas_cost `{MessageLike M} (m : M) : Z := gas m * gas_price m.

End Validation.

(** ** evm/vm/base.py *)

Module VM.

(** Modelled from the spec: Computation (section 3), the result of one
    message application; [create_block] reads its error flag and, through
    [computation.vm_state], the receipts and the written store entries. *)
Record Computation := mkComputation {
  is_error : bool;
  vm_state : VMState;
  output : bytes
}.

(** What a call of the state class's [apply_transaction] leaves behind.
    The block and the receipts list are handed over as objects, which the
    method may change in place: [block_after] and [receipts_after] are
    their contents when the call ends.  The call raises, or returns a
    computation and a result block (the third value it returns is not read
    by [create_block]). *)
Record applied := mkApplied {
  block_after : Block;
  receipts_after : list Receipt;
  returned : result (Computation * Block)
}.

(** What base.py imports or calls and the sources do not contain: the
    constants of evm.constants, hashing and serialization, the helpers of
    evm.utils and the classes a VM class is configured with:
    [block_class_is_set] and [state_class_is_set] tell whether
    [_block_class] and [_state_class] hold a class (they are None in [VM]
    itself), [state_apply_transaction] and [state_finalize_block] are the
    methods of the state class. *)
Class Collaborators := {
  keccak : bytes -> bytes;
  rlp_encode : list BlockHeader -> bytes;
  header_hash : BlockHeader -> bytes;
  GENESIS_PARENT_HASH : bytes;
  ZERO_ADDRESS : bytes;
  CREATE_CONTRACT_ADDRESS : bytes;
  MAX_UNCLES : nat;
  MAX_PREV_HEADER_DEPTH : nat;
  gas_limit_continuous : Z -> Z -> bool;
  generate_header_from_parent_header : BlockHeader -> bytes -> Z -> BlockHeader;
  get_receipts : Block -> ChainDB -> list Receipt;
  account_view : ChainDB -> bytes -> gmap string Account;
  generate_contract_address : bytes -> Z -> bytes;
  block_class_is_set : bool;
  state_class_is_set : bool;
  state_apply_transaction : VMState -> Transaction -> Block -> applied;
  state_finalize_block : VMState -> Block -> Block;
  apply_message : VMState -> Message -> Computation;
  apply_create_message : VMState -> Message -> Computation
}.

Record VM := mkVM {
  chaindb : ChainDB;
  block : Block
}.

(** The attributes an instance of [VM] has: the names bound in the class
    body and in [__init__], and [configure] of [Configurable]. *)
Definition attribute_names : list string :=
  ["chaindb"; "_block_class"; "_state_class"; "block"; "logger"; "apply_transaction";
   "execute_bytecode"; "import_block"; "mine_block"; "pack_block";
   "state_in_temp_block"; "create_block";
   "generate_block_from_parent_header_and_coinbase"; "validate_block";
   "validate_uncle"; "get_transaction_class"; "get_pending_transaction";
   "create_transaction"; "create_unsigned_transaction"; "get_block_class";
   "get_block_by_header"; "get_prev_hashes"; "previous_hashes";
   "get_cumulative_gas_used"; "create_header_from_parent"; "configure_header";
   "compute_difficulty"; "clear_journal"; "get_state_class"; "get_state"; "state";
   "configure"].

Definition getattr (self : VM) (name : string) : result pyval :=
  Py.getattr "VM" (List.map (fun n => (n, VObject n)) attribute_names) name.

Section WithCollaborators.
Context `{Collaborators}.

(** *** evm.validation, modelled *)

(** Modelled from the spec: the numeric and shape validations of
    evm/validation.py (not among the sources), each raising a validation
    failure. *)
Definition validate_uint256 (v : pyval) (title : string) : result unit :=
  match v with
  | VInt z =>
      if (0 <=? z) && (z <? 2 ^ 256) then Ok tt
      else Raise (ValidationError "{title} is not a valid uint256" [VStr title; v])
  | _ => Raise (ValidationError "{title} must be an integer" [VStr title; v])
  end.

Definition validate_is_bytes (v : pyval) (title : string) : result unit :=
  match v with
  | VBytes _ => Ok tt
  | _ => Raise (ValidationError "{title} must be a byte string" [VStr title; v])
  end.

Definition validate_canonical_address (v : pyval) (title : string) : result unit :=
  match v with
  | VBytes b =>
      if Nat.eqb (String.length b) 20 then Ok tt
      else Raise (ValidationError "{title} is not a valid canonical address" [VStr title; v])
  | _ => Raise (ValidationError "{title} is not a valid canonical address" [VStr title; v])
  end.

Definition validate_length_lte (v : bytes) (maximum_length : nat) (title : string)
  : result unit :=
  if Nat.leb (String.length v) maximum_length then Ok tt
  else Raise (ValidationError "{title} length exceeds the maximum"
                              [VStr title; VBytes v; VInt (Z.of_nat maximum_length)]).

Definition validate_gas_limit (gas_limit parent_gas_limit : Z) : result unit :=
  if gas_limit_continuous gas_limit parent_gas_limit then Ok tt
  else Raise (ValidationError "The gas limit is out of bounds of the parent's"
                              [VInt gas_limit; VInt parent_gas_limit]).

(** *** State *)

(** Modelled from the spec: the state class called with a store, an
    execution context, a state root and the receipts. *)
Definition new_state (db : ChainDB) (ctx : ExecutionContext) (root : bytes)
           (rs : list Receipt) : VMState :=
  {| State.chaindb := db; State.execution_context := ctx; State.state_root := root;
     State.receipts := rs; State.state_db := account_view db root;
     State.gas_used := from_option receipt_gas_used 0 (last rs);
     State.gas_limit := ctx_gas_limit ctx; State.writes := ∅; State.journal := [] |}.

(** [for _ in range(MAX_PREV_HEADER_DEPTH)] of [get_prev_hashes]. *)
Fixpoint walk_parents (depth : nat) (block_header : BlockHeader) (db : ChainDB)
  : list bytes :=
  match depth with
  | O => []
  | S depth' =>
      header_hash block_header ::
      match get_parent_header block_header db with
      | Ok parent => walk_parents depth' parent db
      | Raise _ => []
      end
  end.

Definition get_prev_hashes (last_block_hash : bytes) (db : ChainDB)
  : result (list bytes) :=
  if String.eqb last_block_hash GENESIS_PARENT_HASH then Ok []
  else
    block_header ← get_block_header_by_hash last_block_hash db;
    Ok (walk_parents MAX_PREV_HEADER_DEPTH block_header db).

Definition previous_hashes (self : VM) : result (list bytes) :=
  get_prev_hashes (Header.parent_hash (header (block self))) (chaindb self).

(** [get_state_class] hands back the class in [_state_class]; here it
    hands back nothing, the methods of the class being collaborators, and
    what is left of it is the failure for a VM class without a state
    class. *)
Definition err_no_state_class : exception :=
  AttributeError "No `_state_class` has been set for this VM" [].

Definition get_state_class : result unit :=
  if state_class_is_set then Ok tt else Raise err_no_state_class.

Definition get_state (self : VM) (db : option ChainDB)
           (block_header : option BlockHeader) (prev_hashes : option (list bytes))
  : result VMState :=
  let db := default (chaindb self) db in
  let block_header := default (header (block self)) block_header in
  prev_hashes ← match prev_hashes with
                | Some p => Ok p
                | None => get_prev_hashes (Header.parent_hash block_header) db
                end;
  let execution_context := from_block_header block_header prev_hashes in
  let receipts := get_receipts (block self) (chaindb self) in
  get_state_class;;
  Ok (new_state db execution_context (Header.state_root block_header) receipts).

Definition state (self : VM) : result VMState :=
  get_state self (Some (chaindb self)) (Some (header (block self))) None.

(** *** Validate *)

(** The five failures of [validate_uncle], in the order of its checks. *)
Definition err_uncle_number (blk : Block) (uncle : BlockHeader) : exception :=
  ValidationError "Uncle number ({0}) is higher than block number ({1})"
                  [VInt (Header.block_number uncle); VInt (number blk)].
Definition err_uncle_ancestor (uncle : BlockHeader) : exception :=
  ValidationError "Uncle ancestor not found: {0}" [VBytes (Header.parent_hash uncle)].
Definition err_uncle_not_child (uncle parent_header : BlockHeader) : exception :=
  ValidationError "Uncle number ({0}) is not one above ancestor's number ({1})"
                  [VInt (Header.block_number uncle);
                   VInt (Header.block_number parent_header)].
Definition err_uncle_timestamp (uncle parent_header : BlockHeader) : exception :=
  ValidationError "Uncle timestamp ({0}) is before ancestor's timestamp ({1})"
                  [VInt (Header.timestamp uncle); VInt (Header.timestamp parent_header)].
Definition err_uncle_gas (uncle : BlockHeader) : exception :=
  ValidationError "Uncle's gas usage ({0}) is above the limit ({1})"
                  [VInt (Header.gas_used uncle); VInt (Header.gas_limit uncle)].

Definition validate_uncle (self : VM) (blk : Block) (uncle : BlockHeader)
  : result unit :=
  if Header.block_number uncle >=? number blk then
    Raise (err_uncle_number blk uncle)
  else
    parent_header ←
      match get_block_header_by_hash (Header.parent_hash uncle) (chaindb self) with
      | Raise (BlockNotFound _ _) => Raise (err_uncle_ancestor uncle)
      | r => r
      end;
    if negb (Header.block_number uncle =? Header.block_number parent_header + 1) then
      Raise (err_uncle_not_child uncle parent_header)
    else if Header.timestamp uncle <? Header.timestamp parent_header then
      Raise (err_uncle_timestamp uncle parent_header)
    else if Header.gas_used uncle >? Header.gas_limit uncle then
      Raise (err_uncle_gas uncle)
    else Ok tt.

(** The parent-relative checks of [validate_block], run for a block that
    is not the genesis block. *)
Definition validate_against_parent (self : VM) (blk : Block) : result unit :=
  parent_header ← get_parent_header (header blk) (chaindb self);
  validate_gas_limit (Header.gas_limit (header blk)) (Header.gas_limit parent_header);;
  validate_length_lte (Header.extra_data (header blk)) 32 "BlockHeader.extra_data";;
  if Header.timestamp (header blk) <? Header.timestamp parent_header then
    Raise (ValidationError
             "`timestamp` is before the parent block's timestamp.\n- block  : {0}\n- parent : {1}. "
             [VInt (Header.timestamp (header blk)); VInt (Header.timestamp parent_header)])
  else if Header.timestamp (header blk) =? Header.timestamp parent_header then
    Raise (ValidationError
             "`timestamp` is equal to the parent block's timestamp\n- block : {0}\n- parent: {1}. "
             [VInt (Header.timestamp (header blk)); VInt (Header.timestamp parent_header)])
  else Ok tt.

Definition validate_block (self : VM) (blk : Block) : result unit :=
  (if negb (is_genesis blk) then validate_against_parent self blk else Ok tt);;
  (if Nat.ltb MAX_UNCLES (length (uncles blk)) then
     Raise (ValidationError "Blocks may have a maximum of {0} uncles.  Found {1}."
                            [VInt (Z.of_nat MAX_UNCLES);
                             VInt (Z.of_nat (length (uncles blk)))])
   else Ok tt);;
  for_each (validate_uncle self blk) (uncles blk);;
  st ← state self;
  (if negb (State.is_key_exists st (Header.state_root (header blk))) then
     Raise (ValidationError "`state_root` was not found in the db.\n- state_root: {0}"
                            [VBytes (Header.state_root (header blk))])
   else Ok tt);;
  let local_uncle_hash := keccak (rlp_encode (uncles blk)) in
  if negb (String.eqb local_uncle_hash (Header.uncles_hash (header blk))) then
    (* the arguments of [.format] are evaluated before the exception is built *)
    header_uncle_hash ← Header.getattr (header blk) "uncle_hash";
    Raise (ValidationError
             "`uncles_hash` and block `uncles` do not match.\n - num_uncles       : {0}\n - block uncle_hash : {1}\n - header uncle_hash: {2}"
             [VInt (Z.of_nat (length (uncles blk))); VBytes local_uncle_hash;
              header_uncle_hash])
  else Ok tt.

(** *** Gas Usage API *)

Definition get_cumulative_gas_used (self : VM) (blk : Block) : result Z :=
  if negb (Nat.eqb (length (transactions blk)) 0) then
    match last (get_receipts blk (chaindb self)) with
    | Some receipt => Ok (receipt_gas_used receipt)
    | None => Raise (IndexError "list index out of range")
    end
  else Ok 0.

(** *** Blocks *)

(** [get_block_class] hands back the class in [_block_class]; what is kept
    of it here is its failure for a VM class without a block class. *)
Definition err_no_block_class : exception :=
  AttributeError "No `_block_class` has been set for this VM" [].

Definition get_block_class : result unit :=
  if block_class_is_set then Ok tt else Raise err_no_block_class.

(** The block the block class makes of the generated header, without
    transactions and without uncles.  The method gets the block class
    through [get_block_class]: called on a VM it finds one, [__init__]
    having got it the same way, and where it is called on a class, in
    [create_block], the failure of [get_block_class] is that of the
    caller. *)
Definition generate_block_from_parent_header_and_coinbase
           (parent_header : BlockHeader) (coinbase : bytes) : Block :=
  let block_header :=
    generate_header_from_parent_header parent_header coinbase
                                       (Header.timestamp parent_header + 1) in
  {| header := block_header; transactions := []; uncles := [] |}.

(** *** The scope [with vm.state_in_temp_block() as state: body]

    [state_in_temp_block] is a generator under [contextlib.contextmanager].
    Entering the scope runs it up to [yield state].  Leaving the scope
    normally resumes it after the [yield]; leaving it with an exception
    throws the exception into the generator at the [yield], and since the
    [yield] stands in no [try], the statements after it are not run and
    the exception goes on to the caller.  The body works on the state
    object it is handed, so it returns the state as it left it. *)
Definition state_in_temp_block_enter (self : VM) : result (VMState * nat) :=
  let hd := header (block self) in
  let temp_block :=
    generate_block_from_parent_header_and_coinbase hd (Header.coinbase hd) in
  previous ← previous_hashes self;
  let prev_hashes := header_hash hd :: previous in
  st ← get_state self None (Some (header temp_block)) (Some prev_hashes);
  Ok (State.snapshot st).

Definition state_in_temp_block {A} (self : VM)
           (body : VMState -> VMState * result A) : result (VMState * result A) :=
  entered ← state_in_temp_block_enter self;
  let '(st, snapshot) := entered in
  match body st with
  | (st', Ok a) => Ok (State.revert st' snapshot, Ok a)
  | (st', Raise e) => Ok (st', Raise e)
  end.

(** *** Mining *)

Definition setdefault (kwargs : gmap string pyval) (key : string) (v : pyval)
  : gmap string pyval :=
  match kwargs !! key with
  | Some _ => kwargs
  | None => <[key := v]> kwargs
  end.

(** [for key, value in kwargs.items(): setattr(header, key, value)] *)
Fixpoint setattrs (hd : BlockHeader) (items : list (string * pyval))
  : option BlockHeader :=
  match items with
  | [] => Some hd
  | (key, v) :: rest =>
      match Header.setattr hd key v with
      | Some hd' => setattrs hd' rest
      | None => None
      end
  end.

Definition known_fields : gset string := list_to_set Header.field_names.

(** The configuration error of [pack_block]. *)
Definition err_unknown_fields (unknown_fields : gset string) : exception :=
  AttributeError
    "Unable to set the field(s) {0} on the `BlockHeader` class. Received the following unexpected fields: {1}."
    [VStr (String.concat ", " (elements known_fields));
     VStr (String.concat ", " (elements unknown_fields))].

(** Whether [v] is a value of the type of the header field [key]: an integer
    for bloom, difficulty, block_number, gas_limit, gas_used and timestamp,
    bytes for the other fields. *)
Definition has_field_type (key : string) (v : pyval) : bool :=
  match v with
  | VInt _ =>
      bool_decide (key ∈ ["bloom"; "difficulty"; "block_number"; "gas_limit"; "gas_used";
                          "timestamp"])
  | VBytes _ =>
      bool_decide (key ∈ ["parent_hash"; "uncles_hash"; "coinbase"; "state_root";
                          "transaction_root"; "receipt_root"; "extra_data"; "mix_hash";
                          "nonce"])
  | _ => false
  end.

(** The block handed to [pack_block]: the VM's own block, the object
    [self.block], as [mine_block] hands it over, or a block object of its
    own, which shares nothing with the VM. *)
Inductive block_arg :=
| OwnBlock
| OtherBlock (blk : Block).

Definition block_of (self : VM) (arg : block_arg) : Block :=
  match arg with
  | OwnBlock => block self
  | OtherBlock blk => blk
  end.

(** The VM once the block handed over has become [blk']: a change of
    [self.block] is a change of the VM. *)
Definition vm_with (self : VM) (arg : block_arg) (blk' : Block) : VM :=
  match arg with
  | OwnBlock => {| chaindb := chaindb self; block := blk' |}
  | OtherBlock _ => self
  end.

(** [pack_block(block, uncles=..., **kwargs)]: the keyword [uncles] is the
    argument [uncles_kw], [kwargs] holds the other keywords.  The block is
    changed in place, so the VM and the block as the call leaves them are
    returned next to the result, and the validation at the end is made by
    the VM as it is then.  The outcome is [None] when a value is stored in
    a field whose type it does not have, which the header record does not
    represent. *)
Definition pack_block (self : VM) (arg : block_arg)
           (uncles_kw : option (list BlockHeader)) (kwargs : gmap string pyval)
  : option (VM * Block * result Block) :=
  let blk := block_of self arg in
  let '(blk, kwargs) :=
    match uncles_kw with
    | Some us =>
        ({| header := header blk; transactions := transactions blk; uncles := us |},
         setdefault kwargs "uncles_hash" (VBytes (keccak (rlp_encode us))))
    | None => (blk, kwargs)
    end in
  let hd := header blk in
  let provided_fields : gset string := dom kwargs in
  let unknown_fields := provided_fields ∖ known_fields in
  if negb (bool_decide (unknown_fields = ∅)) then
    Some (vm_with self arg blk, blk, Raise (err_unknown_fields unknown_fields))
  else
    match setattrs hd (map_to_list kwargs) with
    | None => None
    | Some hd' =>
        let blk' := {| header := hd'; transactions := transactions blk;
                       uncles := uncles blk |} in
        let self' := vm_with self arg blk' in
        Some (self', blk', validate_block self' blk';; Ok blk')
    end.

(** The header the store holds for the uncle's declared parent. *)
Definition uncle_parent (self : VM) (uncle : BlockHeader) : option BlockHeader :=
  headers (chaindb self) !! Header.parent_hash uncle.

(** The block and the keywords of [pack_block] once the keyword [uncles] is
    handled. *)
Definition with_uncles (blk : Block) (uncles_kw : option (list BlockHeader)) : Block :=
  match uncles_kw with
  | Some us => {| header := header blk; transactions := transactions blk; uncles := us |}
  | None => blk
  end.

Definition overrides (uncles_kw : option (list BlockHeader)) (kwargs : gmap string pyval)
  : gmap string pyval :=
  match uncles_kw with
  | Some us => setdefault kwargs "uncles_hash" (VBytes (keccak (rlp_encode us)))
  | None => kwargs
  end.

(** *** create_block *)

(** A call of the state class made by [create_block]: the arguments the
    state is built from, and the arguments of the method. *)
Inductive call :=
| ApplyTransaction (store : gmap string string) (ctx : ExecutionContext)
                   (root : bytes) (rs : list Receipt)
                   (transaction : Transaction) (blk : Block)
| FinalizeBlock (store : gmap string string) (ctx : ExecutionContext)
                (root : bytes) (rs : list Receipt) (blk : Block).

(** [ChainDB(MemoryDB(d))] *)
Definition witness_chaindb (d : gmap string string) : ChainDB :=
  {| kv_store := d; headers := ∅ |}.

(** The variables [block], [receipts] and [recent_trie_nodes] of the loop. *)
Record loop_vars := mkLoop {
  cur_block : Block;
  cur_receipts : list Receipt;
  recent_trie_nodes : gmap string string
}.

(** The state a package runs against, and the call made on it. *)
Definition package_store (vars : loop_vars) (transaction_witness : gmap string string)
  : gmap string string :=
  (* transaction_witness.update(recent_trie_nodes) *)
  recent_trie_nodes vars ∪ transaction_witness.

Definition package_state (prev_hashes : list bytes) (vars : loop_vars)
           (transaction_witness : gmap string string) : VMState :=
  let witness_db := witness_chaindb (package_store vars transaction_witness) in
  let execution_context := from_block_header (header (cur_block vars)) prev_hashes in
  new_state witness_db execution_context
            (Header.state_root (header (cur_block vars))) (cur_receipts vars).

Definition package_call (prev_hashes : list bytes) (vars : loop_vars)
           (package : Transaction * gmap string string) : call :=
  ApplyTransaction (package_store vars (snd package))
                   (from_block_header (header (cur_block vars)) prev_hashes)
                   (Header.state_root (header (cur_block vars)))
                   (cur_receipts vars) (fst package) (cur_block vars).

(** What the state class does with a package run at [vars]. *)
Definition package_outcome (prev_hashes : list bytes) (vars : loop_vars)
           (package : Transaction * gmap string string) : applied :=
  state_apply_transaction (package_state prev_hashes vars (snd package)) (fst package)
                          (cur_block vars).

(** One turn of the loop over [transaction_packages]: the loop variables
    after it, or the exception that ends the loop, and next to them the
    calls made on the state class.  When the computation reports an error
    the variables [block] and [receipts] keep naming the objects that were
    handed to [apply_transaction], as that call left them. *)
Definition create_block_step (prev_hashes : list bytes) (vars : loop_vars)
           (package : Transaction * gmap string string)
  : result loop_vars * list call :=
  let '(transaction, transaction_witness) := package in
  match get_state_class with
  | Raise e => (Raise e, [])
  | Ok _ =>
      let st := package_state prev_hashes vars transaction_witness in
      let applied := state_apply_transaction st transaction (cur_block vars) in
      (outcome ← returned applied;
       let '(computation, result_block) := outcome in
       if negb (is_error computation) then
         Ok {| cur_block := result_block;
               cur_receipts := State.receipts (vm_state computation);
               (* recent_trie_nodes.update(computation.vm_state.access_logs.writes) *)
               recent_trie_nodes :=
                 State.writes (vm_state computation) ∪ recent_trie_nodes vars |}
       else
         Ok {| cur_block := block_after applied;
               cur_receipts := receipts_after applied;
               recent_trie_nodes := recent_trie_nodes vars |},
       [package_call prev_hashes vars (transaction, transaction_witness)])
  end.

Fixpoint create_block_loop (prev_hashes : list bytes) (vars : loop_vars)
         (packages : list (Transaction * gmap string string))
  : result loop_vars * list call :=
  match packages with
  | [] => (Ok vars, [])
  | package :: rest =>
      match create_block_step prev_hashes vars package with
      | (Ok vars', calls) =>
          let '(r, calls') := create_block_loop prev_hashes vars' rest in
          (r, (calls ++ calls')%list)
      | (Raise e, calls) => (Raise e, calls)
      end
  end.

Definition create_block_init (coinbase : bytes) (parent_header : BlockHeader)
  : loop_vars :=
  {| cur_block := generate_block_from_parent_header_and_coinbase parent_header coinbase;
     cur_receipts := []; recent_trie_nodes := ∅ |}.

Definition finalize_state (prev_hashes : list bytes) (vars : loop_vars) : VMState :=
  let witness_db := witness_chaindb (recent_trie_nodes vars) in
  let execution_context := from_block_header (header (cur_block vars)) prev_hashes in
  new_state witness_db execution_context
            (Header.state_root (header (cur_block vars))) (cur_receipts vars).

Definition finalize_call (prev_hashes : list bytes) (vars : loop_vars) : call :=
  FinalizeBlock (recent_trie_nodes vars)
                (from_block_header (header (cur_block vars)) prev_hashes)
                (Header.state_root (header (cur_block vars)))
                (cur_receipts vars) (cur_block vars).

(** [create_block] returns the finalized block, unless a call on the way
    raises; the calls it made on the state class are returned next to its
    result, in order. *)
Definition create_block (transaction_packages : list (Transaction * gmap string string))
           (prev_hashes : list bytes) (coinbase : bytes) (parent_header : BlockHeader)
  : result Block * list call :=
  (* cls.generate_block_from_parent_header_and_coinbase(parent_header, coinbase) *)
  match get_block_class with
  | Raise e => (Raise e, [])
  | Ok _ =>
      match create_block_loop prev_hashes (create_block_init coinbase parent_header)
                              transaction_packages with
      | (Ok vars, calls) =>
          match get_state_class with
          | Raise e => (Raise e, calls)
          | Ok _ =>
              (Ok (state_finalize_block (finalize_state prev_hashes vars)
                                        (cur_block vars)),
               (calls ++ [finalize_call prev_hashes vars])%list)
          end
      | (Raise e, calls) => (Raise e, calls)
      end
  end.

(** The loop variables after the loop ran over [packages], or the exception
    that ended it. *)
Definition vars_after (prev_hashes : list bytes) (vars : loop_vars)
           (packages : list (Transaction * gmap string string)) : result loop_vars :=
  fst (create_block_loop prev_hashes vars packages).





(** *** execute_bytecode *)

(** Modelled from the spec: a message is a creation when its recipient is
    the contract-creation sentinel (evm/vm/message.py is not among the
    sources). *)
Definition is_create (message : Message) : bool :=
  String.eqb (msg_to message) CREATE_CONTRACT_ADDRESS.

(** The block [# Validate the inputs]. *)
Definition validate_inputs (self : VM) : result unit :=
  (v ← getattr self "gas_price"; validate_uint256 v "Transaction.gas_price");;
  (v ← getattr self "gas"; validate_uint256 v "Transaction.gas");;
  (v ← getattr self "to";
   if negb (bool_decide (v = VBytes CREATE_CONTRACT_ADDRESS)) then
     v' ← getattr self "to"; validate_canonical_address v' "Transaction.to"
   else Ok tt);;
  (v ← getattr self "value"; validate_uint256 v "Transaction.value");;
  (v ← getattr self "data"; validate_is_bytes v "Transaction.data").

(** On success the state as the call leaves it is returned next to the
    computation. *)
Definition execute_bytecode (self : VM) (bytecode : bytes)
           (gas gas_price : option Z) (to sender : option bytes) (value : option Z)
           (data origin : option bytes) (code_address : option bytes)
  : result (VMState * Computation) :=
  let gas := default (Header.gas_limit (header (block self))) gas in
  let gas_price := default 1 gas_price in
  let to := default ZERO_ADDRESS to in
  let sender := default ZERO_ADDRESS sender in
  let value := default 0 value in
  let data := default "" data in
  let origin := default ZERO_ADDRESS origin in
  validate_inputs self;;
  let gas_fee := gas * gas_price in
  st ← state self;
  let state_db := State.delta_balance (State.state_db st) sender (-1 * gas_fee) in
  let state_db := State.increment_nonce state_db sender in
  let '(contract_address, data, code) :=
    if String.eqb to CREATE_CONTRACT_ADDRESS then
      (Some (generate_contract_address sender (State.get_nonce state_db sender - 1)),
       "", "")
    else (code_address, data, bytecode) in
  let st := State.with_state_db st state_db in
  let message :=
    {| msg_gas := gas; msg_gas_price := gas_price; msg_to := to; msg_sender := sender;
       msg_value := value; msg_data := data; msg_code := code;
       msg_create_address := contract_address; msg_code_address := code_address |} in
  let computation :=
    if is_create message then apply_create_message st message
    else apply_message st message in
  Ok (vm_state computation, computation).

End WithCollaborators.

End VM.

(** ** eth/vm/forks/petersburg *)

Module Petersburg.

(** constants.py; [denoms.ether] of eth_utils is 10 ** 18 wei. *)
Definition ether : Z := 10 ^ 18.
Definition GAS_EXTCODEHASH_EIP1052 : Z := 400.
Definition EIP1234_BLOCK_REWARD : Z := 2 * ether.
Definition EIP1789_DEVFUND_REWARD : Z := 0.
Definition EIP1789_DEVFUND_BENEFICIARY : bytes := "".

Definition get_block_reward : Z := EIP1234_BLOCK_REWARD.
Definition get_devfund_reward : Z := EIP1789_DEVFUND_REWARD.
Definition get_devfund_beneficiary : bytes := EIP1789_DEVFUND_BENEFICIARY.

(** What a call evaluates [super(x)] on: a class, or an instance of one. *)
Inductive pyobject :=
| Class (name : string)
| Instance (cls : string).

(** What [finalize_block] can hand back: a block, or the object that
    [super(...)] evaluates to. *)
Inductive returned :=
| ReturnedBlock (blk : Block)
| ReturnedSuper (cls : string).

(** The builtin [super] called with one argument: the argument has to be a
    class, and the value is an unbound super object. *)
Definition super (arg : pyobject) : result returned :=
  match arg with
  | Class name => Ok (ReturnedSuper name)
  | Instance cls => Raise (TypeError "super() argument 1 must be type, not {0}" [VStr cls])
  end.

(** [block_class] of [PetersburgVM]: the class of the blocks it is given. *)
Definition block_class : string := "PetersburgBlock".

(** [PetersburgVM.finalize_block]; the state is changed in place, so the
    state as the call leaves it is returned next to the result. *)
Definition finalize_block (st : VMState) (blk : Block) : VMState * result returned :=
  let devfund_reward := get_devfund_reward in
  let devfund_beneficiary := get_devfund_beneficiary in
  let st := State.with_state_db st
              (State.delta_balance (State.state_db st) devfund_beneficiary devfund_reward) in
  (st, super (Instance block_class)).

(** What the specification describes: the credit, then the finalization of the
    parent fork (given as [parent_finalize_block]) on the block. *)
Definition finalize_block_delegating
           (parent_finalize_block : VMState -> Block -> VMState * Block)
           (st : VMState) (blk : Block) : VMState * result returned :=
  let st := State.with_state_db st
              (State.delta_balance (State.state_db st) get_devfund_beneficiary
                                   get_devfund_reward) in
  let '(st', blk') := parent_finalize_block st blk in
  (st', Ok (ReturnedBlock blk')).

End Petersburg.

(** ** A small chain to run the definitions on *)

Module Sample.
Import VM.

Definition header0 : BlockHeader :=
  Header.mkHeader "genesis-parent" "k" "miner" "root0" "" "" 0 1 0 5000 0 100 "" "" "".

(** A child of [header0]. *)
Definition header1 : BlockHeader :=
  Header.mkHeader "h0" "k" "miner" "root1" "" "" 0 1 1 5000 0 101 "" "" "".

(** A child of [header1]. *)
Definition header2 : BlockHeader :=
  Header.mkHeader "h1" "k" "miner" "root2" "" "" 0 1 2 5000 0 102 "" "" "".

(** An uncle whose parent is [header0]. *)
Definition uncle1 : BlockHeader :=
  Header.mkHeader "h0" "k" "other" "rootu" "" "" 0 1 1 5000 10 101 "" "" "".

Definition sample_hash (h : BlockHeader) : bytes :=
  if Header.block_number h =? 0 then "h0"
  else if Header.block_number h =? 1 then "h1" else "h2".

Definition receipt1 : Receipt := mkReceipt 21000 0 [].
Definition receipt2 : Receipt := mkReceipt 42000 0 [].

Definition sample_db : ChainDB :=
  {| kv_store := {[ "root0" := "s0"; "root1" := "s1"; "root2" := "s2" ]};
     headers := {[ "h0" := header0; "h1" := header1 ]} |}.

Definition alice : bytes := "alice".

Definition sample_accounts : gmap string Account :=
  {[ alice := State.mkAccount 1000 3 "" ∅ ]}.

(** Modelled from the spec: the state class (evm/vm_state.py is not among
    the sources).  Its [apply_transaction] runs the Validator, whose
    failure is the failure of the call; then it executes the transaction,
    and whether or not the execution errors the gas is consumed and a
    receipt is produced, which is appended to the receipts list the state
    holds.  Here the execution errors exactly when the transaction's gas is
    0, and it writes one store entry, named after the transaction's data.
    The result block is a new block; the block handed over is left as it
    is. *)
Definition sample_apply (st : VMState) (tx : Transaction) (blk : Block) : applied :=
  match Validation.validate_frontier_transaction st tx with
  | Raise e =>
      {| block_after := blk; receipts_after := State.receipts st; returned := Raise e |}
  | Ok _ =>
      let failed := tx_gas tx =? 0 in
      let rs :=
        (State.receipts st ++ [mkReceipt (State.gas_used st + tx_gas tx) 0 []])%list in
      let st' :=
        {| State.chaindb := State.chaindb st;
           State.execution_context := State.execution_context st;
           State.state_root := State.state_root st; State.receipts := rs;
           State.state_db := State.state_db st;
           State.gas_used := State.gas_used st + tx_gas tx;
           State.gas_limit := State.gas_limit st;
           State.writes := {[ tx_data tx := "written" ]};
           State.journal := State.journal st |} in
      {| block_after := blk; receipts_after := rs;
         returned :=
           Ok ({| is_error := failed; vm_state := st'; output := "" |},
               {| header := header blk; transactions := (transactions blk ++ [tx])%list;
                  uncles := uncles blk |}) |}
  end.


#[export] Instance sample_collaborators : Collaborators := {|
  keccak := fun b => "k" ++ b;
  rlp_encode := fun hs => String.concat "" (List.map Header.parent_hash hs);
  header_hash := sample_hash;
  GENESIS_PARENT_HASH := "genesis-parent";
  ZERO_ADDRESS := "00000000000000000000";
  CREATE_CONTRACT_ADDRESS := "";
  MAX_UNCLES := 2;
  MAX_PREV_HEADER_DEPTH := 256;
  gas_limit_continuous := fun g p => Z.abs (g - p) <=? p / 1024;
  generate_header_from_parent_header := fun p cb ts =>
    Header.mkHeader (sample_hash p) "k" cb (Header.state_root p) "" "" 0 1
                    (Header.block_number p + 1) (Header.gas_limit p) 0 ts "" "" "";
  get_receipts := fun blk _ =>
    if Nat.eqb (length (transactions blk)) 0 then [] else [receipt1; receipt2];
  account_view := fun _ _ => sample_accounts;
  generate_contract_address := fun s n => s ++ "-contract";
  block_class_is_set := true;
  state_class_is_set := true;
  state_apply_transaction := sample_apply;
  state_finalize_block := fun _ blk => blk;
  apply_message := fun st _ => {| is_error := false; vm_state := st; output := "" |};
  apply_create_message := fun st _ => {| is_error := false; vm_state := st; output := "" |}
|}.






Definition block2 : Block := {| header := header2; transactions := []; uncles := [] |}.

(** [block2] with a header whose uncles_hash is not the digest of its
    (empty) uncle list. *)
Definition block2_bad_uncles_hash : Block :=
  {| header := Header.mkHeader "h1" "wrong" "miner" "root2" "" "" 0 1 2 5000 0 102 "" "" "";
     transactions := []; uncles := [] |}.

Definition block2_with_uncle : Block :=
  {| header := Header.mkHeader "h1" "kh0" "miner" "root2" "" "" 0 1 2 5000 0 102 "" "" "";
     transactions := []; uncles := [uncle1] |}.

Definition sample_vm : VM := {| chaindb := sample_db; block := block2 |}.

Definition tx_of (nonce gas_price gas value : Z) (data : bytes) : Transaction :=
  {| tx_nonce := nonce; tx_gas_price := gas_price; tx_gas := gas; tx_to := "bob";
     tx_value := value; tx_data := data; tx_sender := alice |}.

Definition sample_state (used limit : Z) : VMState :=
  {| State.chaindb := sample_db;
     State.execution_context := from_block_header header2 [];
     State.state_root := "root2"; State.receipts := [];
     State.state_db := sample_accounts; State.gas_used := used; State.gas_limit := limit;
     State.writes := ∅; State.journal := [] |}.

(** A body for [state_in_temp_block]: it pays 5 to ["bob"], then fails. *)
Definition pay_then_fail (st : VMState) : VMState * result unit :=
  (State.with_state_db st (State.delta_balance (State.state_db st) "bob" 5),
   Raise (ValidationError "Invalid transaction nonce" [])).

(** The same payment, returning normally. *)
Definition pay_then_return (st : VMState) : VMState * result unit :=
  (State.with_state_db st (State.delta_balance (State.state_db st) "bob" 5), Ok tt).

End Sample.

(** ** More of evm/vm/base.py: mining *)

Module Mining.
Import VM.

Section WithCollaborators.
Context `{Collaborators}.

(** The header [n] parent links above [block_header] in the store, when all
    the links up to it are there. *)
Fixpoint ancestor (db : ChainDB) (block_header : BlockHeader) (n : nat)
  : option BlockHeader :=
  match n with
  | O => Some block_header
  | S n' =>
      match headers db !! Header.parent_hash block_header with
      | Some parent => ancestor db parent n'
      | None => None
      end
  end.

(** [self.pack_block(self.block, ...)], as [mine_block] calls it: the block
    packed is the VM's own, changed in place, so the VM that validates at the
    end is the VM with the packed block.  The VM as the call leaves it is
    returned next to the result. *)
Definition pack_own_block (self : VM) (uncles_kw : option (list BlockHeader))
           (kwargs : gmap string pyval) : option (VM * result Block) :=
  let blk := block self in
  let '(blk, kwargs) :=
    match uncles_kw with
    | Some us =>
        ({| header := header blk; transactions := transactions blk; uncles := us |},
         setdefault kwargs "uncles_hash" (VBytes (keccak (rlp_encode us))))
    | None => (blk, kwargs)
    end in
  let hd := header blk in
  let provided_fields : gset string := dom kwargs in
  let unknown_fields := provided_fields ∖ known_fields in
  if negb (bool_decide (unknown_fields = ∅)) then
    Some ({| chaindb := chaindb self; block := blk |},
          Raise (err_unknown_fields unknown_fields))
  else
    match setattrs hd (map_to_list kwargs) with
    | None => None
    | Some hd' =>
        let blk' := {| header := hd'; transactions := transactions blk;
                       uncles := uncles blk |} in
        let self' := {| chaindb := chaindb self; block := blk' |} in
        Some (self', validate_block self' blk';; Ok blk')
    end.


End WithCollaborators.

End Mining.

(** * Properties *)

(** ** Transaction and message validation *)

Module ValidationFacts.
Import Validation.

Section Message.
Context `{MessageLike M}.
Implicit Types (st : VMState) (m : M).




Lemma validate_frontier_message_ok st m :
  gas_cost m <= sender_balance st m ->
  value m + gas_cost m <= sender_balance st m ->
  State.gas_used st + gas m <= State.gas_limit st ->
  validate_frontier_message st m = Ok tt.
Proof.
  unfold sender_balance, gas_cost, validate_frontier_message. intros Hge Hge' Hle.
  apply Z.ltb_ge in Hge, Hge'. rewrite Hge, Hge'.
  destruct (Z.gtb_spec (State.gas_used st + gas m) (State.gas_limit st)); [lia | done].
Qed.

Lemma validate_frontier_message_ok_inv st m :
  validate_frontier_message st m = Ok tt ->
  gas_cost m <= sender_balance st m /\
  value m + gas_cost m <= sender_balance st m /\
  State.gas_used st + gas m <= State.gas_limit st.
Proof.
  unfold sender_balance, gas_cost, validate_frontier_message.
  destruct (Z.ltb_spec (State.get_balance (State.state_db st) (sender m))
                       (gas m * gas_price m)); [done |].
  destruct (Z.ltb_spec (State.get_balance (State.state_db st) (sender m))
                       (value m + gas m * gas_price m)); [done |].
  destruct (Z.gtb_spec (State.gas_used st + gas m) (State.gas_limit st)); [done |].
  lia.
Qed.

End Message.



(** C5, as the specification states it: the failure is the invalid-nonce one exactly
    when the nonces differ.  It is false: the message checks run first, and
    a sender without funds gets their failure although the nonce differs. *)
Lemma validate_transaction_nonce_not_iff :
  ~ (forall (st : VMState) (tx : Transaction),
        validate_frontier_transaction st tx = Raise err_nonce <->
        State.get_nonce (State.state_db st) (tx_sender tx) <> tx_nonce tx).
Proof.
  intros Hspec.
  destruct (Hspec (Sample.sample_state 0 100) (Sample.tx_of 7 100 11 0 "")) as [_ Hback].
  assert (Hne : State.get_nonce (State.state_db (Sample.sample_state 0 100))
                                (tx_sender (Sample.tx_of 7 100 11 0 "")) <> 7)
    by (vm_compute; discriminate).
  specialize (Hback Hne). vm_compute in Hback. discriminate.
Qed.

(** C5, amended.  [validate_frontier_transaction] raises the invalid-nonce
    failure if and only if the message-level funds and gas checks pass and
    the transaction's nonce differs from the sender's current nonce; when
    the nonce matches and the message-level checks pass, it succeeds; and
    when the message-level checks fail, it fails with their failure. *)
Theorem validate_transaction_nonce (st : VMState) (tx : Transaction) :
  let current := State.get_nonce (State.state_db st) (tx_sender tx) in
  (validate_frontier_transaction st tx = Raise err_nonce <->
   validate_frontier_message st tx = Ok tt /\ current <> tx_nonce tx) /\
  (current = tx_nonce tx -> validate_frontier_message st tx = Ok tt ->
   validate_frontier_transaction st tx = Ok tt) /\
  (forall e, validate_frontier_message st tx = Raise e ->
             validate_frontier_transaction st tx = Raise e).
Proof.
  intros current. subst current. unfold validate_frontier_transaction.
  pose proof (validate_frontier_message_ok_inv st tx) as Hinv.
  assert (Hmsg : forall e, validate_frontier_message st tx = Raise e -> e <> err_nonce).
  { unfold validate_frontier_message. intros e.
    repeat case_match; intros [= <-]; discriminate. }
  destruct (validate_frontier_message st tx) as [[] | e] eqn:Hm; cbn.
  - destruct (Z.eqb_spec (State.get_nonce (State.state_db st) (tx_sender tx))
                         (tx_nonce tx)) as [Heq | Hne]; cbn.
    + split; [split | split].
      * discriminate.
      * intros [_ Hne]. contradiction.
      * reflexivity.
      * discriminate.
    + split; [split | split].
      * intros _. split; [reflexivity | exact Hne].
      * reflexivity.
      * intros Heq. contradiction.
      * discriminate.
  - split; [split | split].
    + intros [= ->]. by destruct (Hmsg err_nonce).
    + intros [[=] _].
    + discriminate.
    + intros e' [= ->]. reflexivity.
Qed.

Lemma validate_transaction_nonce_witness :
  validate_frontier_transaction (Sample.sample_state 0 100) (Sample.tx_of 3 50 10 500 "")
  = Ok tt.
Proof.
  apply (validate_transaction_nonce (Sample.sample_state 0 100)
                                    (Sample.tx_of 3 50 10 500 "")).
  - vm_compute. reflexivity.
  - vm_compute. reflexivity.
Defined.

End ValidationFacts.

(** ** Header attributes *)

Module HeaderFacts.
Import VM.

Ltac field_cases key :=
  repeat match goal with
         | |- context [String.eqb key ?name] => destruct (String.eqb_spec key name); subst
         | H : context [String.eqb key ?name] |- _ =>
             destruct (String.eqb_spec key name); subst
         end.

Lemma setattr_has_field_type hd key v :
  is_Some (Header.setattr hd key v) <-> has_field_type key v = true.
Proof.
  unfold Header.setattr, has_field_type.
  destruct v; try (split; [by intros [? [=]] | done]).
  - field_cases key; rewrite bool_decide_eq_true;
      (split; [intros Hs; try (by destruct Hs); set_solver
              | intros Hin; try (by eexists); set_solver]).
  - field_cases key; rewrite bool_decide_eq_true;
      (split; [intros Hs; try (by destruct Hs); set_solver
              | intros Hin; try (by eexists); set_solver]).
Qed.

Lemma setattr_getattr_eq hd key v hd' :
  Header.setattr hd key v = Some hd' -> Header.getattr hd' key = Ok v.
Proof.
  unfold Header.setattr. destruct v; try done; field_cases key; intros [= <-]; reflexivity.
Qed.

Lemma setattr_getattr_ne hd key v hd' key' :
  Header.setattr hd key v = Some hd' -> key' <> key ->
  Header.getattr hd' key' = Header.getattr hd key'.
Proof.
  unfold Header.setattr.
  destruct v; try done; field_cases key; intros [= <-] Hne;
    unfold Header.getattr, Py.getattr, Header.attributes; cbn [List.find fst snd];
    repeat match goal with
           | |- context [String.eqb ?name key'] =>
               destruct (String.eqb_spec name key'); [subst; try done |]
           end; reflexivity.
Qed.

End HeaderFacts.

(** ** The VM *)

Module VMFacts.
Import VM.
Import HeaderFacts.

(** Closes the cases of a chain of checks: each part of the statement is
    either decided by the check that fired or contradicts it. *)
(** One step of the result monad. *)
Ltac py_step := cbn [mbind result_bind Py.bind negb is_validation_error is_ok].

Ltac uncle_cases :=
  repeat split; intros; try done; try lia; naive_solver lia.

Section WithCollaborators.
Context `{Collaborators}.
Implicit Types (self : VM) (blk : Block) (uncle : BlockHeader).

(** C8.  [validate_uncle] fails exactly when the uncle's number is at
    least the block's number, or the uncle's declared parent is not in the
    store, or the uncle's number is not one above that parent's, or the
    uncle's timestamp is before that parent's, or the uncle's gas_used
    exceeds its gas_limit; every failure is a validation failure; the
    checks are made in this order, and a missing parent is reported as a
    validation failure that cites the parent hash. *)
Theorem validate_uncle_outcomes self blk uncle :
  let r := validate_uncle self blk uncle in
  (is_ok r = false <->
   Header.block_number uncle >= number blk
   \/ uncle_parent self uncle = None
   \/ (exists p, uncle_parent self uncle = Some p /\
                 Header.block_number uncle <> Header.block_number p + 1)
   \/ (exists p, uncle_parent self uncle = Some p /\
                 Header.timestamp uncle < Header.timestamp p)
   \/ Header.gas_used uncle > Header.gas_limit uncle) /\
  (is_ok r = false -> is_validation_error r = true) /\
  (Header.block_number uncle >= number blk -> r = Raise (err_uncle_number blk uncle)) /\
  (Header.block_number uncle < number blk -> uncle_parent self uncle = None ->
   r = Raise (err_uncle_ancestor uncle)) /\
  (forall p, Header.block_number uncle < number blk -> uncle_parent self uncle = Some p ->
             Header.block_number uncle <> Header.block_number p + 1 ->
             r = Raise (err_uncle_not_child uncle p)) /\
  (forall p, Header.block_number uncle < number blk -> uncle_parent self uncle = Some p ->
             Header.block_number uncle = Header.block_number p + 1 ->
             Header.timestamp uncle < Header.timestamp p ->
             r = Raise (err_uncle_timestamp uncle p)) /\
  (forall p, Header.block_number uncle < number blk -> uncle_parent self uncle = Some p ->
             Header.block_number uncle = Header.block_number p + 1 ->
             Header.timestamp p <= Header.timestamp uncle ->
             Header.gas_used uncle > Header.gas_limit uncle ->
             r = Raise (err_uncle_gas uncle)).
Proof.
  unfold uncle_parent, validate_uncle, get_block_header_by_hash. cbn zeta.
  destruct (Z.geb_spec (Header.block_number uncle) (number blk)) as [Hnum | Hnum];
    [ cbn; uncle_cases |].
  destruct (headers (chaindb self) !! Header.parent_hash uncle) as [p |] eqn:Hp; cbn;
    [| uncle_cases ].
  destruct (Z.eqb_spec (Header.block_number uncle) (Header.block_number p + 1))
    as [Hchild | Hchild]; cbn; [| uncle_cases ].
  destruct (Z.ltb_spec (Header.timestamp uncle) (Header.timestamp p)) as [Hts | Hts];
    cbn; [ uncle_cases |].
  destruct (Z.gtb_spec (Header.gas_used uncle) (Header.gas_limit uncle)) as [Hgas | Hgas];
    cbn; uncle_cases.
Qed.


(** C7: what [execute_bytecode] does on every call.  The validation block
    reads [self.gas_price], and a VM has no such attribute: the call
    raises AttributeError before any default is used, any balance is
    debited or any message is dispatched. *)
Theorem execute_bytecode_raises self bytecode gas gas_price to sender value data
        origin code_address :
  execute_bytecode self bytecode gas gas_price to sender value data origin code_address
  = Raise (AttributeError "'{0}' object has no attribute '{1}'"
                          [VStr "VM"; VStr "gas_price"]).
Proof. reflexivity. Qed.

(** *** validate_block *)

Lemma for_each_ok {A} (f : A -> result unit) (xs : list A) :
  for_each f xs = Ok tt <-> Forall (fun x => f x = Ok tt) xs.
Proof.
  induction xs as [| x xs IH]; cbn.
  - split; [constructor | done].
  - destruct (f x) as [[] | e] eqn:Hx; cbn.
    + rewrite IH. split; [by constructor | by inversion 1].
    + split; [done | inversion 1; congruence].
Qed.

(** The parent-relative checks pass exactly when the parent is in the
    store, the gas limit is continuous with the parent's, extra_data has
    at most 32 bytes and the timestamp is strictly after the parent's. *)
Lemma validate_against_parent_ok self blk :
  validate_against_parent self blk = Ok tt <->
  exists parent_header,
    headers (chaindb self) !! Header.parent_hash (header blk) = Some parent_header
    /\ gas_limit_continuous (Header.gas_limit (header blk))
                            (Header.gas_limit parent_header) = true
    /\ (String.length (Header.extra_data (header blk)) <= 32)%nat
    /\ Header.timestamp parent_header < Header.timestamp (header blk).
Proof.
  unfold validate_against_parent, get_parent_header, get_block_header_by_hash,
    validate_gas_limit, validate_length_lte.
  destruct (headers (chaindb self) !! Header.parent_hash (header blk)) as [p |]; cbn;
    [| split; [done | by intros (? & [=] & _)]].
  destruct (gas_limit_continuous _ _) eqn:Hgas; cbn;
    [| split; [done | intros (? & [= <-] & ? & _); congruence]].
  destruct (Nat.leb_spec (String.length (Header.extra_data (header blk))) 32); cbn;
    [| split; [done | intros (? & [= <-] & _ & ? & _); lia]].
  destruct (Z.ltb_spec (Header.timestamp (header blk)) (Header.timestamp p));
    [split; [done | intros (? & [= <-] & _ & _ & ?); lia] |].
  destruct (Z.eqb_spec (Header.timestamp (header blk)) (Header.timestamp p));
    [split; [done | intros (? & [= <-] & _ & _ & ?); lia] |].
  split; [| done]. intros _. exists p. repeat split; [done | lia | lia].
Qed.

(** Every failure of the parent-relative checks of a block whose parent
    is in the store is a validation failure. *)
Lemma validate_against_parent_failure self blk parent_header :
  headers (chaindb self) !! Header.parent_hash (header blk) = Some parent_header ->
  is_ok (validate_against_parent self blk) = false ->
  is_validation_error (validate_against_parent self blk) = true.
Proof.
  unfold validate_against_parent, get_parent_header, get_block_header_by_hash,
    validate_gas_limit, validate_length_lte.
  intros ->. cbn. repeat (case_match; cbn; try done).
Qed.

(** When [validate_block] accepts a block that is not the genesis block:
    exactly when all its checks pass. *)
Lemma validate_block_accepts self blk st :
  is_genesis blk = false ->
  state self = Ok st ->
  validate_block self blk = Ok tt <->
  validate_against_parent self blk = Ok tt
  /\ (length (uncles blk) <= MAX_UNCLES)%nat
  /\ Forall (fun uncle => validate_uncle self blk uncle = Ok tt) (uncles blk)
  /\ State.is_key_exists st (Header.state_root (header blk)) = true
  /\ Header.uncles_hash (header blk) = keccak (rlp_encode (uncles blk)).
Proof.
  intros Hgen Hst. unfold validate_block. rewrite Hgen, Hst. py_step.
  destruct (validate_against_parent self blk) as [[] | e]; py_step;
    [| split; [done | by intros [[=] _]]].
  destruct (Nat.ltb_spec MAX_UNCLES (length (uncles blk))); py_step;
    [split; [done | intros (_ & ? & _); lia] |].
  rewrite <- for_each_ok.
  destruct (for_each (validate_uncle self blk) (uncles blk)) as [[] | e]; py_step;
    [| split; [done | by intros (_ & _ & [=] & _)]].
  destruct (State.is_key_exists st _); py_step;
    [| split; [done | by intros (_ & _ & _ & [=] & _)]].
  destruct (String.eqb_spec (keccak (rlp_encode (uncles blk)))
                            (Header.uncles_hash (header blk))) as [Heq | Hne]; py_step.
  - split; [| done]. intros _. repeat split; [lia | done].
  - split; [done |]. intros (_ & _ & _ & _ & Heq). congruence.
Qed.

(** C1: what [validate_block] does on a block that is not the genesis
    block and passes every check but the last, its header's uncles_hash
    not being the digest of its uncles.  Building the message of the
    validation failure reads [block.header.uncle_hash], an attribute a
    header does not have: the call raises AttributeError and not a
    validation failure. *)
Theorem validate_block_uncles_hash_mismatch self blk st :
  is_genesis blk = false ->
  validate_against_parent self blk = Ok tt ->
  (length (uncles blk) <= MAX_UNCLES)%nat ->
  Forall (fun uncle => validate_uncle self blk uncle = Ok tt) (uncles blk) ->
  state self = Ok st ->
  State.is_key_exists st (Header.state_root (header blk)) = true ->
  Header.uncles_hash (header blk) <> keccak (rlp_encode (uncles blk)) ->
  validate_block self blk
  = Raise (AttributeError "'{0}' object has no attribute '{1}'"
                          [VStr "BlockHeader"; VStr "uncle_hash"])
  /\ is_validation_error (validate_block self blk) = false.
Proof.
  intros Hgen Hparent Hlen Huncles Hst Hroot Hne.
  assert (Hraise : validate_block self blk
                   = Raise (AttributeError "'{0}' object has no attribute '{1}'"
                                           [VStr "BlockHeader"; VStr "uncle_hash"])).
  { unfold validate_block. rewrite Hgen, Hst, Hparent. py_step.
    destruct (Nat.ltb_spec MAX_UNCLES (length (uncles blk))); [lia |]. py_step.
    apply for_each_ok in Huncles. rewrite Huncles. py_step. rewrite Hroot. py_step.
    destruct (String.eqb_spec (keccak (rlp_encode (uncles blk)))
                              (Header.uncles_hash (header blk))); [congruence |].
    reflexivity. }
  split; [exact Hraise | by rewrite Hraise].
Qed.

(** *** state_in_temp_block *)

(** The state handed to the body holds its own account view at the
    snapshot's place in the stack. *)
Lemma state_in_temp_block_enter_snapshot self st snap :
  state_in_temp_block_enter self = Ok (st, snap) ->
  State.journal st !! snap = Some (State.state_db st).
Proof.
  unfold state_in_temp_block_enter, get_state.
  destruct (previous_hashes self) as [previous | e]; cbn; [| done].
  destruct get_state_class as [[] | e]; cbn; [| done].
  intros [= <- <-]. reflexivity.
Qed.

(** Leaving the scope normally restores the account view of the entry,
    for a body that keeps the stack up to the snapshot. *)
Lemma state_in_temp_block_normal_exit {A} self (body : VMState -> VMState * result A)
      st snap st' a :
  state_in_temp_block_enter self = Ok (st, snap) ->
  body st = (st', Ok a) ->
  State.journal st' !! snap = State.journal st !! snap ->
  exists final,
    state_in_temp_block self body = Ok (final, Ok a)
    /\ State.state_db final = State.state_db st.
Proof.
  intros Henter Hbody Hkeep. unfold state_in_temp_block. rewrite Henter. cbn.
  rewrite Hbody. eexists. split; [reflexivity |].
  unfold State.revert.
  rewrite Hkeep, (state_in_temp_block_enter_snapshot _ _ _ Henter). reflexivity.
Qed.

(** C2: what [state_in_temp_block] does when the enclosed code raises.
    The exception is thrown into the generator at its [yield], the
    [state.revert(snapshot)] after it is not reached, and the state is left
    as the enclosed code mutated it. *)
Theorem state_in_temp_block_error_exit {A} self (body : VMState -> VMState * result A)
        st snap st' e :
  state_in_temp_block_enter self = Ok (st, snap) ->
  body st = (st', Raise e) ->
  state_in_temp_block self body = Ok (st', Raise e).
Proof.
  intros Henter Hbody. unfold state_in_temp_block. rewrite Henter. cbn.
  by rewrite Hbody.
Qed.

(** *** create_block *)

(** A turn of the loop for a VM class with a state class: one call of
    [apply_transaction], whose outcome decides the loop variables. *)
Lemma create_block_step_set prev_hashes vars package :
  state_class_is_set = true ->
  create_block_step prev_hashes vars package
  = (let applied := package_outcome prev_hashes vars package in
     outcome ← returned applied;
     Ok (if is_error (fst outcome) then
           {| cur_block := block_after applied; cur_receipts := receipts_after applied;
              recent_trie_nodes := recent_trie_nodes vars |}
         else
           {| cur_block := snd outcome;
              cur_receipts := State.receipts (vm_state (fst outcome));
              recent_trie_nodes :=
                State.writes (vm_state (fst outcome)) ∪ recent_trie_nodes vars |}),
     [package_call prev_hashes vars package]).
Proof.
  intros Hset. unfold create_block_step, get_state_class, package_outcome.
  destruct package as [transaction transaction_witness]. rewrite Hset. cbn [fst snd].
  cbn zeta.
  destruct (returned (state_apply_transaction _ transaction (cur_block vars)))
    as [[computation result_block] | e]; [| reflexivity].
  py_step. cbn [fst snd]. by destruct (is_error computation).
Qed.

(** Without a state class the turn fails before any call. *)
Lemma create_block_step_unset prev_hashes vars package :
  state_class_is_set = false ->
  create_block_step prev_hashes vars package = (Raise err_no_state_class, []).
Proof.
  intros Hunset. unfold create_block_step, get_state_class.
  destruct package as [transaction transaction_witness]. by rewrite Hunset.
Qed.

(** What a turn that does not raise has done. *)
Lemma create_block_step_ok_inv prev_hashes vars package vars' :
  fst (create_block_step prev_hashes vars package) = Ok vars' ->
  state_class_is_set = true
  /\ exists computation result_block,
      returned (package_outcome prev_hashes vars package) = Ok (computation, result_block)
      /\ vars' = if is_error computation then
                   {| cur_block := block_after (package_outcome prev_hashes vars package);
                      cur_receipts :=
                        receipts_after (package_outcome prev_hashes vars package);
                      recent_trie_nodes := recent_trie_nodes vars |}
                 else
                   {| cur_block := result_block;
                      cur_receipts := State.receipts (vm_state computation);
                      recent_trie_nodes :=
                        State.writes (vm_state computation) ∪ recent_trie_nodes vars |}.
Proof.
  destruct state_class_is_set eqn:Hset.
  - rewrite (create_block_step_set _ _ _ Hset). cbn [fst]. cbn zeta.
    destruct (returned (package_outcome prev_hashes vars package))
      as [[computation result_block] | e]; py_step; [| done].
    cbn [fst snd]. intros [= <-]. split; [done |]. by exists computation, result_block.
  - by rewrite (create_block_step_unset _ _ _ Hset).
Qed.


Lemma vars_after_cons prev_hashes vars package rest :
  vars_after prev_hashes vars (package :: rest)
  = (vars' ← fst (create_block_step prev_hashes vars package);
     vars_after prev_hashes vars' rest).
Proof.
  unfold vars_after. cbn [create_block_loop].
  destruct (create_block_step prev_hashes vars package) as [[vars' | e] calls];
    [| reflexivity].
  cbn [fst]. py_step. by destruct (create_block_loop prev_hashes vars' rest).
Qed.

Lemma vars_after_app prev_hashes pre post : forall vars,
  vars_after prev_hashes vars (pre ++ post)
  = (vars' ← vars_after prev_hashes vars pre; vars_after prev_hashes vars' post).
Proof.
  induction pre as [| package pre IH]; intros vars; [reflexivity |].
  cbn [app]. rewrite !vars_after_cons.
  destruct (fst (create_block_step prev_hashes vars package)) as [vars' | e];
    [| reflexivity].
  py_step. apply IH.
Qed.

Lemma vars_after_snoc prev_hashes vars packages i package :
  packages !! i = Some package ->
  vars_after prev_hashes vars (take (S i) packages)
  = (vars' ← vars_after prev_hashes vars (take i packages);
     fst (create_block_step prev_hashes vars' package)).
Proof.
  intros Hi. rewrite (take_S_r _ _ _ Hi), vars_after_app.
  destruct (vars_after prev_hashes vars (take i packages)) as [vars' | e]; [| reflexivity].
  py_step. rewrite vars_after_cons.
  by destruct (fst (create_block_step prev_hashes vars' package)).
Qed.

(** The loop variables at a package the loop gets to are there at every
    package before it. *)
Lemma vars_after_take_ok prev_hashes packages n final : forall vars i,
  vars_after prev_hashes vars (take n packages) = Ok final ->
  (i <= n)%nat ->
  exists vars_i,
    vars_after prev_hashes vars (take i packages) = Ok vars_i
    /\ vars_after prev_hashes vars_i (take (n - i) (drop i packages)) = Ok final.
Proof.
  intros vars i Hn Hle.
  assert (Hsplit : take n packages = (take i packages ++ take (n - i) (drop i packages))%list).
  { rewrite <- (take_drop i (take n packages)) at 1.
    rewrite take_take, Nat.min_l by lia. f_equal.
    by rewrite skipn_firstn_comm. }
  rewrite Hsplit, vars_after_app in Hn.
  destruct (vars_after prev_hashes vars (take i packages)) as [vars_i | e]; [| done].
  by exists vars_i.
Qed.


Lemma create_block_loop_calls_inv prev_hashes packages : forall vars i c,
  snd (create_block_loop prev_hashes vars packages) !! i = Some c ->
  exists package vars_i,
    packages !! i = Some package
    /\ vars_after prev_hashes vars (take i packages) = Ok vars_i
    /\ c = package_call prev_hashes vars_i package.
Proof.
  induction packages as [| first rest IH]; intros vars i c Hc; [done |].
  cbn [create_block_loop] in Hc.
  destruct state_class_is_set eqn:Hset.
  2:{ by rewrite (create_block_step_unset _ _ _ Hset) in Hc. }
  pose proof (vars_after_cons prev_hashes vars first) as Hcons.
  rewrite (create_block_step_set _ _ _ Hset) in Hc, Hcons. cbn zeta in Hc, Hcons.
  cbn [fst] in Hcons.
  destruct (returned (package_outcome prev_hashes vars first)) as [outcome | e];
    revert Hc Hcons; py_step; intros Hc Hcons.
  - match type of Hc with
    | context [create_block_loop _ ?vars' rest] => specialize (IH vars' (pred i) c)
    end.
    destruct (create_block_loop prev_hashes _ rest) as [r calls].
    cbn [snd] in Hc, IH. destruct i as [| i].
    + injection Hc as <-. by exists first, vars.
    + cbn in Hc. destruct (IH Hc) as (package & vars_i & Hi & Hvars & ->).
      exists package, vars_i. split; [exact Hi |]. split; [| reflexivity].
      cbn [take]. by rewrite Hcons.
  - cbn [snd] in Hc. destruct i as [| i]; [| done].
    injection Hc as <-. by exists first, vars.
Qed.





(** [create_block] for a VM class with a block class and a state class:
    the loop, and then one call of [finalize_block] unless the loop
    raised. *)
Lemma create_block_run packages prev_hashes coinbase parent_header :
  block_class_is_set = true ->
  state_class_is_set = true ->
  create_block packages prev_hashes coinbase parent_header
  = let init := create_block_init coinbase parent_header in
    let calls := snd (create_block_loop prev_hashes init packages) in
    match vars_after prev_hashes init packages with
    | Ok vars =>
        (Ok (state_finalize_block (finalize_state prev_hashes vars) (cur_block vars)),
         (calls ++ [finalize_call prev_hashes vars])%list)
    | Raise e => (Raise e, calls)
    end.
Proof.
  intros Hblock Hset. unfold create_block, vars_after, get_block_class, get_state_class.
  rewrite Hblock, Hset.
  by destruct (create_block_loop _ _ _) as [[vars | e] calls].
Qed.

(** Without a block class or without a state class [create_block] fails
    before any call. *)
Lemma create_block_no_block_class packages prev_hashes coinbase parent_header :
  block_class_is_set = false ->
  create_block packages prev_hashes coinbase parent_header
  = (Raise err_no_block_class, []).
Proof. intros Hunset. unfold create_block, get_block_class. by rewrite Hunset. Qed.

Lemma create_block_unset packages prev_hashes coinbase parent_header :
  block_class_is_set = true ->
  state_class_is_set = false ->
  create_block packages prev_hashes coinbase parent_header
  = (Raise err_no_state_class, []).
Proof.
  intros Hblock Hunset. unfold create_block, get_block_class. rewrite Hblock.
  destruct packages as [| package rest].
  - cbn. unfold get_state_class. by rewrite Hunset.
  - cbn [create_block_loop]. by rewrite (create_block_step_unset _ _ _ Hunset).
Qed.



(** *** pack_block *)

Lemma setattrs_getattr items : forall hd hd',
  NoDup items.*1 ->
  setattrs hd items = Some hd' ->
  (forall key v, (key, v) ∈ items -> Header.getattr hd' key = Ok v)
  /\ (forall key, key ∉ items.*1 -> Header.getattr hd' key = Header.getattr hd key).
Proof.
  induction items as [| [k v] rest IH]; intros hd hd' Hnodup Hset.
  - injection Hset as <-. split; [intros ? ? Hin; by apply elem_of_nil in Hin | done].
  - cbn in Hset, Hnodup. apply NoDup_cons in Hnodup as [Hfresh Hnodup].
    destruct (Header.setattr hd k v) as [hd1 |] eqn:Hone; [| done].
    destruct (IH hd1 hd' Hnodup Hset) as [Hin Hout]. split.
    + intros key v' [[= -> ->] | Hrest]%elem_of_cons.
      * rewrite (Hout k Hfresh). by eapply setattr_getattr_eq.
      * by apply Hin.
    + intros key [Hne Hrest]%not_elem_of_cons.
      rewrite (Hout key Hrest). by eapply setattr_getattr_ne.
Qed.

Lemma setattrs_is_Some items : forall hd,
  (forall key v, (key, v) ∈ items -> has_field_type key v = true) ->
  is_Some (setattrs hd items).
Proof.
  induction items as [| [k v] rest IH]; intros hd Htyped; [by eexists |].
  cbn. destruct (proj2 (setattr_has_field_type hd k v)) as [hd1 ->].
  - apply Htyped. by left.
  - apply IH. intros key v' Hin. apply Htyped. by right.
Qed.

Lemma unknown_fields_empty (kwargs : gmap string pyval) :
  dom kwargs ∖ known_fields = ∅ <->
  forall key, is_Some (kwargs !! key) -> key ∈ Header.field_names.
Proof.
  unfold known_fields. split.
  - intros Hempty key Hkey. apply elem_of_dom in Hkey.
    destruct (decide (key ∈ Header.field_names)) as [| Hout]; [done |].
    assert (key ∈ dom kwargs ∖ (list_to_set Header.field_names : gset string)) as Hin
        by (apply elem_of_difference; split; [done | by rewrite elem_of_list_to_set]).
    rewrite Hempty in Hin. by apply not_elem_of_empty in Hin.
  - intros Hknown. apply set_eq. intros key. split; [| by intros ?%not_elem_of_empty].
    intros [Hin Hout]%elem_of_difference. exfalso. apply Hout.
    apply elem_of_list_to_set, Hknown. by apply elem_of_dom.
Qed.

(** C9.  In [pack_block], once the keyword [uncles] is handled: if a
    keyword is not the name of a header field the call fails with the
    configuration error (an AttributeError) and the header is as it was;
    when every keyword is the name of a header field (and its value of the
    field's type) the header gets exactly the given values, the fields not
    given keeping theirs, the block's uncles are the given ones and
    uncles_hash their digest when uncles are given (and no uncles_hash is),
    and the block is returned exactly when [validate_block] accepts it, a
    failure of [validate_block] being the failure of the call.  The block
    is the VM's own or another one; the validation is that of the VM as
    the overrides leave it, so for the VM's own block it is made on the
    packed block. *)
Theorem pack_block_overrides self arg uncles_kw kwargs :
  let blk := block_of self arg in
  let blk1 := with_uncles blk uncles_kw in
  let given := overrides uncles_kw kwargs in
  ((exists key, is_Some (given !! key) /\ key ∉ Header.field_names) ->
   pack_block self arg uncles_kw kwargs
   = Some (vm_with self arg blk1, blk1,
           Raise (err_unknown_fields (dom given ∖ known_fields)))
   /\ header blk1 = header blk)
  /\ ((forall key, is_Some (given !! key) -> key ∈ Header.field_names) ->
      (forall key v, given !! key = Some v -> has_field_type key v = true) ->
      exists hd',
        let blk' := {| header := hd'; transactions := transactions blk;
                       uncles := uncles blk1 |} in
        let self' := vm_with self arg blk' in
        pack_block self arg uncles_kw kwargs
        = Some (self', blk', validate_block self' blk';; Ok blk')
        /\ (forall key v, given !! key = Some v -> Header.getattr hd' key = Ok v)
        /\ (forall key, given !! key = None ->
                        Header.getattr hd' key = Header.getattr (header blk) key)
        /\ (forall us, uncles_kw = Some us ->
                       uncles blk' = us
                       /\ (kwargs !! "uncles_hash" = None ->
                           Header.uncles_hash hd' = keccak (rlp_encode us)))
        /\ (uncles_kw = None -> uncles blk' = uncles blk)
        /\ (arg = OwnBlock -> block self' = blk')
        /\ (forall b, (validate_block self' blk';; Ok blk') = Ok b ->
                      b = blk' /\ validate_block self' blk' = Ok tt)
        /\ (validate_block self' blk' = Ok tt ->
            (validate_block self' blk';; Ok blk') = Ok blk')).
Proof.
  intros blk blk1 given.
  assert (Hshape : pack_block self arg uncles_kw kwargs
                   = if negb (bool_decide (dom given ∖ known_fields = ∅)) then
                       Some (vm_with self arg blk1, blk1,
                             Raise (err_unknown_fields (dom given ∖ known_fields)))
                     else
                       match setattrs (header blk) (map_to_list given) with
                       | None => None
                       | Some hd' =>
                           let blk' := {| header := hd'; transactions := transactions blk;
                                          uncles := uncles blk1 |} in
                           let self' := vm_with self arg blk' in
                           Some (self', blk', validate_block self' blk';; Ok blk')
                       end).
  { subst blk blk1 given. unfold pack_block, with_uncles, overrides.
    by destruct uncles_kw. }
  assert (Hheader : header blk1 = header blk) by (subst blk1; by destruct uncles_kw).
  split.
  - intros (key & Hkey & Hout). split; [| done]. rewrite Hshape.
    rewrite bool_decide_eq_false_2; [done |].
    intros Hempty. apply Hout. by eapply unknown_fields_empty.
  - intros Hknown Htyped. rewrite Hshape.
    rewrite bool_decide_eq_true_2 by by apply unknown_fields_empty.
    cbn [negb].
    destruct (setattrs_is_Some (map_to_list given) (header blk)) as [hd' Hset].
    { intros key v Hin. apply Htyped. by apply elem_of_map_to_list. }
    rewrite Hset. exists hd'. cbn zeta.
    destruct (setattrs_getattr _ _ _ (NoDup_fst_map_to_list given) Hset) as [Hin Hout].
    assert (Hgiven : forall key v, given !! key = Some v -> Header.getattr hd' key = Ok v).
    { intros key v Hkey. apply Hin. by apply elem_of_map_to_list. }
    split; [reflexivity |]. split; [exact Hgiven |].
    split; [| split; [| split; [| split; [| split]]]].
    + intros key Hnone. apply Hout. intros [[k v] [-> Hkv]]%list_elem_of_fmap.
      apply elem_of_map_to_list in Hkv. cbn in Hnone. congruence.
    + intros us ->. split; [reflexivity |]. intros Hnone.
      specialize (Hgiven "uncles_hash" (VBytes (keccak (rlp_encode us)))).
      subst given. unfold overrides, setdefault in Hgiven. rewrite Hnone in Hgiven.
      rewrite lookup_insert_eq in Hgiven. specialize (Hgiven eq_refl).
      by injection Hgiven.
    + intros ->. reflexivity.
    + intros ->. reflexivity.
    + intros b. destruct (validate_block _ _) as [[] | e]; [| done].
      by intros [= <-].
    + by intros ->.
Qed.
End WithCollaborators.

Import (hints) Sample.

Lemma validate_uncle_outcomes_witness :
  validate_uncle Sample.sample_vm Sample.block2_with_uncle Sample.uncle1 = Ok tt
  /\ is_ok (validate_uncle Sample.sample_vm Sample.block2 Sample.header2) = false.
Proof.
  split; [reflexivity |].
  apply (validate_uncle_outcomes Sample.sample_vm Sample.block2 Sample.header2).
  left. vm_compute. discriminate.
Defined.



Lemma validate_block_uncles_hash_mismatch_witness :
  validate_block Sample.sample_vm Sample.block2 = Ok tt
  /\ validate_block Sample.sample_vm Sample.block2_bad_uncles_hash
     = Raise (AttributeError "'{0}' object has no attribute '{1}'"
                             [VStr "BlockHeader"; VStr "uncle_hash"])
  /\ is_validation_error
       (validate_block Sample.sample_vm Sample.block2_bad_uncles_hash) = false.
Proof.
  split; [reflexivity |].
  eapply (validate_block_uncles_hash_mismatch Sample.sample_vm
                                              Sample.block2_bad_uncles_hash).
  - reflexivity.
  - reflexivity.
  - cbn. lia.
  - constructor.
  - reflexivity.
  - reflexivity.
  - cbn. discriminate.
Defined.

Lemma state_in_temp_block_error_exit_witness :
  exists st snap st',
    state_in_temp_block_enter Sample.sample_vm = Ok (st, snap)
    /\ state_in_temp_block Sample.sample_vm Sample.pay_then_fail
       = Ok (st', Raise (ValidationError "Invalid transaction nonce" []))
    /\ State.get_balance (State.state_db st) "bob" = 0
    /\ State.get_balance (State.state_db st') "bob" = 5.
Proof.
  eexists _, _, _. split; [reflexivity |]. split.
  - eapply (state_in_temp_block_error_exit Sample.sample_vm Sample.pay_then_fail);
      reflexivity.
  - split; reflexivity.
Defined.



Lemma pack_block_overrides_witness :
  exists hd',
    let blk' := {| header := hd'; transactions := []; uncles := [] |} in
    let self' := {| chaindb := Sample.sample_db; block := blk' |} in
    pack_block Sample.sample_vm OwnBlock None
               {[ "parent_hash" := VBytes "zz"; "block_number" := VInt 0 ]}
    = Some (self', blk', validate_block self' blk';; Ok blk')
    /\ Header.getattr hd' "parent_hash" = Ok (VBytes "zz")
    /\ Header.getattr hd' "timestamp" = Ok (VInt 102)
    /\ validate_block self' blk'
       = Raise (BlockNotFound "No block with hash {0} found" [VBytes "zz"])
    /\ validate_block Sample.sample_vm blk' = Ok tt.
Proof.
  destruct (proj2 (pack_block_overrides
                     Sample.sample_vm OwnBlock None
                     {[ "parent_hash" := VBytes "zz"; "block_number" := VInt 0 ]}))
    as (hd' & Hpack & Hgiven & Hother & _).
  - cbn [overrides]. intros key [v Hkey].
    apply lookup_insert_Some in Hkey as [[<- _] | [_ [<- _]%lookup_singleton_Some]];
      set_solver.
  - cbn [overrides]. intros key v Hkey.
    by apply lookup_insert_Some in Hkey
      as [[<- <-] | [_ [<- <-]%lookup_singleton_Some]].
  - exists hd'. cbn zeta. split; [exact Hpack |].
    assert (Hhd : hd' = Header.mkHeader "zz" "k" "miner" "root2" "" "" 0 1 0 5000 0 102
                                         "" "" "").
    { cbv delta [vm_with block_of] in Hpack. cbn beta iota in Hpack.
      vm_compute in Hpack. by injection Hpack. }
    subst hd'. repeat split; reflexivity.
Defined.

End VMFacts.

(** ** The Petersburg fork *)

Module PetersburgFacts.
Import Petersburg.

(** C3: what [PetersburgVM.finalize_block] does on every block.  It
    credits the devfund beneficiary with the devfund reward (zero) and then
    evaluates [super(block)] on the block, an instance and not a class: the
    call raises TypeError.  The finalization of the parent fork is not
    called and no block is returned, whatever the parent fork is. *)
Theorem finalize_block_raises (st : VMState) (blk : Block) :
  finalize_block st blk
  = (State.with_state_db st (State.delta_balance (State.state_db st) "" 0),
     Raise (TypeError "super() argument 1 must be type, not {0}" [VStr "PetersburgBlock"]))
  /\ forall parent_finalize_block,
      snd (finalize_block st blk)
      <> snd (finalize_block_delegating parent_finalize_block st blk).
Proof.
  split; [reflexivity |].
  intros parent. unfold finalize_block_delegating.
  destruct (parent _ blk) as [st' blk']. cbn. discriminate.
Qed.

End PetersburgFacts.

(** * Further properties *)

(** ** Transaction and message validation *)

Module ValidationExtra.
Import Validation ValidationFacts.

(** X1.  [validate_frontier_message] accepts exactly when the sender's
    balance covers gas*gas_price, it covers value + gas*gas_price, and
    gas_used + gas does not exceed the gas limit. *)
Theorem validate_frontier_message_accepts `{MessageLike M} (st : VMState) (m : M) :
  validate_frontier_message st m = Ok tt <->
  gas m * gas_price m <= State.get_balance (State.state_db st) (sender m)
  /\ value m + gas m * gas_price m <= State.get_balance (State.state_db st) (sender m)
  /\ State.gas_used st + gas m <= State.gas_limit st.
Proof.
  split.
  - apply validate_frontier_message_ok_inv.
  - intros (Hgas & Htotal & Hlimit). by apply validate_frontier_message_ok.
Qed.

(** X2.  [validate_frontier_transaction] accepts exactly when the message
    checks accept the transaction and its nonce is the sender's current
    nonce. *)
Theorem validate_frontier_transaction_accepts (st : VMState) (tx : Transaction) :
  validate_frontier_transaction st tx = Ok tt <->
  validate_frontier_message st tx = Ok tt
  /\ State.get_nonce (State.state_db st) (tx_sender tx) = tx_nonce tx.
Proof.
  unfold validate_frontier_transaction.
  destruct (validate_frontier_message st tx) as [[] | e]; cbn.
  - destruct (Z.eqb_spec (State.get_nonce (State.state_db st) (tx_sender tx))
                         (tx_nonce tx)); cbn; split; try done.
    + by intros [_ ?].
  - split; [done | by intros [[=] _]].
Qed.

(** X3.  The outcome of [validate_frontier_transaction] depends on the state
    only through the sender's balance and nonce, gas_used and the gas limit:
    two states that agree on these give the same outcome, whatever the other
    accounts hold. *)
Theorem validate_frontier_transaction_frame (st st' : VMState) (tx : Transaction) :
  State.get_balance (State.state_db st) (tx_sender tx)
  = State.get_balance (State.state_db st') (tx_sender tx) ->
  State.get_nonce (State.state_db st) (tx_sender tx)
  = State.get_nonce (State.state_db st') (tx_sender tx) ->
  State.gas_used st = State.gas_used st' ->
  State.gas_limit st = State.gas_limit st' ->
  validate_frontier_transaction st tx = validate_frontier_transaction st' tx.
Proof.
  intros Hbalance Hnonce Hused Hlimit.
  unfold validate_frontier_transaction, validate_frontier_message. cbn [sender gas gas_price value Transaction_like].
  by rewrite Hbalance, Hnonce, Hused, Hlimit.
Qed.

Lemma validate_frontier_transaction_frame_witness :
  let st := Sample.sample_state 0 100 in
  let st' := State.with_state_db st (State.delta_balance (State.state_db st) "bob" 5) in
  validate_frontier_transaction st (Sample.tx_of 3 50 10 500 "")
  = validate_frontier_transaction st' (Sample.tx_of 3 50 10 500 "").
Proof.
  intros st st'.
  apply (validate_frontier_transaction_frame st st' (Sample.tx_of 3 50 10 500 ""));
    reflexivity.
Defined.

(** X4.  A balance that suffices keeps sufficing when it grows: a message
    accepted in a state is accepted in every state with the same gas_used and
    gas limit in which the sender's balance is at least as high. *)
Theorem validate_frontier_message_more_funds `{MessageLike M} (st st' : VMState) (m : M) :
  State.get_balance (State.state_db st) (sender m)
  <= State.get_balance (State.state_db st') (sender m) ->
  State.gas_used st' = State.gas_used st ->
  State.gas_limit st' = State.gas_limit st ->
  validate_frontier_message st m = Ok tt ->
  validate_frontier_message st' m = Ok tt.
Proof.
  intros Hmore Hused Hlimit (Hgas & Htotal & Hroom)%validate_frontier_message_ok_inv.
  apply validate_frontier_message_ok; unfold sender_balance, gas_cost in *; lia.
Qed.

Lemma validate_frontier_message_more_funds_witness :
  let st := Sample.sample_state 0 100 in
  let st' := State.with_state_db st (State.delta_balance (State.state_db st) Sample.alice 7) in
  validate_frontier_message st' (Sample.tx_of 3 50 10 500 "") = Ok tt.
Proof.
  intros st st'.
  apply (validate_frontier_message_more_funds st st' (Sample.tx_of 3 50 10 500 ""));
    try reflexivity.
  vm_compute. discriminate.
Defined.

End ValidationExtra.

(** ** The VM: ancestor hashes, uncles, blocks *)

Module VMExtra.
Import VM Mining HeaderFacts VMFacts.

Section WithCollaborators.
Context `{Collaborators}.
Implicit Types (self : VM) (blk : Block) (uncle : BlockHeader) (db : ChainDB).

(** *** get_prev_hashes *)

Lemma walk_parents_length depth : forall block_header db,
  (length (walk_parents depth block_header db) <= depth)%nat.
Proof.
  induction depth as [| depth IH]; intros block_header db; cbn; [lia |].
  destruct (get_parent_header block_header db) as [parent | e]; cbn; [| lia].
  specialize (IH parent db). lia.
Qed.

Lemma walk_parents_lookup depth : forall block_header db i,
  walk_parents depth block_header db !! i
  = if (i <? depth)%nat then header_hash <$> ancestor db block_header i else None.
Proof.
  induction depth as [| depth IH]; intros block_header db i; [by destruct i |].
  destruct i as [| i]; [reflexivity |].
  change (S i <? S depth)%nat with (i <? depth)%nat.
  cbn [walk_parents ancestor]. unfold get_parent_header, get_block_header_by_hash.
  destruct (headers db !! Header.parent_hash block_header) as [parent |].
  - apply IH.
  - by destruct (i <? depth)%nat.
Qed.

(** X5.  The tuple [get_prev_hashes] returns never has more than
    MAX_PREV_HEADER_DEPTH hashes. *)
Theorem get_prev_hashes_bounded last_block_hash db hashes :
  get_prev_hashes last_block_hash db = Ok hashes ->
  (length hashes <= MAX_PREV_HEADER_DEPTH)%nat.
Proof.
  unfold get_prev_hashes.
  destruct (String.eqb last_block_hash GENESIS_PARENT_HASH); [intros [= <-]; cbn; lia |].
  destruct (get_block_header_by_hash last_block_hash db) as [block_header | e]; cbn;
    [| done].
  intros [= <-]. apply walk_parents_length.
Qed.

(** X6.  [get_prev_hashes] fails exactly when the hash it starts from is not
    the genesis parent hash and has no header in the store, and the failure is
    the BlockNotFound of that lookup; from the genesis parent hash it returns
    the empty tuple without a lookup.  A header missing further up the chain
    is no failure. *)
Theorem get_prev_hashes_fails_iff last_block_hash db :
  (is_ok (get_prev_hashes last_block_hash db) = false <->
   last_block_hash <> GENESIS_PARENT_HASH /\ headers db !! last_block_hash = None)
  /\ (last_block_hash = GENESIS_PARENT_HASH -> get_prev_hashes last_block_hash db = Ok [])
  /\ (forall e, get_prev_hashes last_block_hash db = Raise e ->
                e = BlockNotFound "No block with hash {0} found" [VBytes last_block_hash]).
Proof.
  unfold get_prev_hashes, get_block_header_by_hash.
  destruct (String.eqb_spec last_block_hash GENESIS_PARENT_HASH) as [Heq | Hne].
  - repeat split; try done. by intros [? _].
  - destruct (headers db !! last_block_hash) as [block_header |]; cbn.
    + repeat split; try done. by intros [_ ?].
    + repeat split; try done. by intros e [= <-].
Qed.

(** X7.  When the starting hash has a header in the store, the hash at
    position i of the tuple is the hash of the header i parent links above
    it, for every i below MAX_PREV_HEADER_DEPTH up to the first header the
    store does not have; the tuple ends there. *)
Theorem get_prev_hashes_ancestors last_block_hash db block_header :
  last_block_hash <> GENESIS_PARENT_HASH ->
  headers db !! last_block_hash = Some block_header ->
  exists hashes,
    get_prev_hashes last_block_hash db = Ok hashes
    /\ forall i, hashes !! i
                 = if (i <? MAX_PREV_HEADER_DEPTH)%nat
                   then header_hash <$> ancestor db block_header i
                   else None.
Proof.
  intros Hne Hfound. unfold get_prev_hashes, get_block_header_by_hash.
  destruct (String.eqb_spec last_block_hash GENESIS_PARENT_HASH); [done |].
  rewrite Hfound. cbn. eexists. split; [reflexivity |].
  intros i. apply walk_parents_lookup.
Qed.

(** *** validate_uncle *)

(** X8.  [validate_uncle] reads the block only for its number and sets no
    limit on how far back the uncle lies: an uncle accepted for a block is
    accepted for every block with the same or a higher number. *)
Theorem validate_uncle_later_block self blk blk' uncle :
  number blk <= number blk' ->
  validate_uncle self blk uncle = Ok tt ->
  validate_uncle self blk' uncle = Ok tt.
Proof.
  unfold validate_uncle. intros Hlater.
  destruct (Z.geb_spec (Header.block_number uncle) (number blk)); [done |].
  destruct (Z.geb_spec (Header.block_number uncle) (number blk')); [lia | done].
Qed.

(** *** validate_block *)

Lemma for_each_first_failure {A} (f : A -> result unit) (good : list A) bad rest e :
  Forall (fun x => f x = Ok tt) good ->
  f bad = Raise e ->
  for_each f (good ++ bad :: rest) = Raise e.
Proof.
  intros Hgood Hbad. induction Hgood as [| x good Hx _ IH]; cbn.
  - by rewrite Hbad.
  - by rewrite Hx.
Qed.

Lemma for_each_failure {A} (f : A -> result unit) (xs : list A) e :
  for_each f xs = Raise e -> exists x, x ∈ xs /\ f x = Raise e.
Proof.
  induction xs as [| x xs IH]; cbn; [done |].
  destruct (f x) as [[] | e'] eqn:Hx; cbn.
  - intros (y & Hy & Hfy)%IH. exists y. split; [by right | done].
  - intros [= ->]. exists x. split; [by left | done].
Qed.

(** A failure of [validate_uncle] is a validation failure. *)
Lemma validate_uncle_failure self blk uncle e :
  validate_uncle self blk uncle = Raise e -> exists template args, e = ValidationError template args.
Proof.
  unfold validate_uncle, get_block_header_by_hash.
  destruct (Header.block_number uncle >=? number blk); [intros [= <-]; by eexists _, _ |].
  destruct (headers (chaindb self) !! Header.parent_hash uncle) as [p |]; cbn;
    [| intros [= <-]; by eexists _, _].
  repeat case_match; intros [= <-]; by eexists _, _.
Qed.

(** The checks of [validate_block] after the parent-relative ones. *)
Lemma validate_block_after_parent self blk :
  (if negb (is_genesis blk) then validate_against_parent self blk else Ok tt) = Ok tt ->
  validate_block self blk
  = ((if Nat.ltb MAX_UNCLES (length (uncles blk)) then
        Raise (ValidationError "Blocks may have a maximum of {0} uncles.  Found {1}."
                               [VInt (Z.of_nat MAX_UNCLES);
                                VInt (Z.of_nat (length (uncles blk)))])
      else Ok tt);;
     for_each (validate_uncle self blk) (uncles blk);;
     st ← state self;
     (if negb (State.is_key_exists st (Header.state_root (header blk))) then
        Raise (ValidationError "`state_root` was not found in the db.\n- state_root: {0}"
                               [VBytes (Header.state_root (header blk))])
      else Ok tt);;
     if negb (String.eqb (keccak (rlp_encode (uncles blk)))
                         (Header.uncles_hash (header blk))) then
       Raise (AttributeError "'{0}' object has no attribute '{1}'"
                             [VStr "BlockHeader"; VStr "uncle_hash"])
     else Ok tt).
Proof. intros Hparent. unfold validate_block. by rewrite Hparent. Qed.

(** What an accepted block satisfies, genesis or not. *)
Lemma validate_block_ok_inv self blk :
  validate_block self blk = Ok tt ->
  (is_genesis blk = true \/ validate_against_parent self blk = Ok tt)
  /\ (length (uncles blk) <= MAX_UNCLES)%nat
  /\ Forall (fun uncle => validate_uncle self blk uncle = Ok tt) (uncles blk)
  /\ (exists st, state self = Ok st
                 /\ State.is_key_exists st (Header.state_root (header blk)) = true)
  /\ Header.uncles_hash (header blk) = keccak (rlp_encode (uncles blk)).
Proof.
  unfold validate_block.
  destruct (is_genesis blk) eqn:Hgen; py_step.
  - destruct (Nat.ltb_spec MAX_UNCLES (length (uncles blk))); py_step; [done |].
    destruct (for_each (validate_uncle self blk) (uncles blk)) as [[] | e] eqn:Huncles;
      py_step; [| done].
    destruct (state self) as [st | e]; py_step; [| done].
    destruct (State.is_key_exists st _) eqn:Hkey; py_step; [| done].
    destruct (String.eqb_spec (keccak (rlp_encode (uncles blk)))
                              (Header.uncles_hash (header blk))); py_step; [| done].
    intros _. repeat split; [by left | lia | by apply for_each_ok | by exists st | done].
  - destruct (validate_against_parent self blk) as [[] | e]; py_step; [| done].
    destruct (Nat.ltb_spec MAX_UNCLES (length (uncles blk))); py_step; [done |].
    destruct (for_each (validate_uncle self blk) (uncles blk)) as [[] | e] eqn:Huncles;
      py_step; [| done].
    destruct (state self) as [st | e]; py_step; [| done].
    destruct (State.is_key_exists st _) eqn:Hkey; py_step; [| done].
    destruct (String.eqb_spec (keccak (rlp_encode (uncles blk)))
                              (Header.uncles_hash (header blk))); py_step; [| done].
    intros _. repeat split; [by right | lia | by apply for_each_ok | by exists st | done].
Qed.

(** X9.  [validate_block] accepts a block exactly when: it is the genesis
    block, or its parent is in the store, its gas limit is continuous with
    the parent's, its extra_data has at most 32 bytes and its timestamp is
    strictly after the parent's; it has at most MAX_UNCLES uncles;
    [validate_uncle] accepts each of them; the VM's state can be built and its
    store has the block's state_root; and the header's uncles_hash is the
    digest of the uncles.  For the genesis block no parent is looked up. *)
Theorem validate_block_accepts_iff self blk :
  validate_block self blk = Ok tt <->
  (is_genesis blk = true
   \/ exists parent_header,
       headers (chaindb self) !! Header.parent_hash (header blk) = Some parent_header
       /\ gas_limit_continuous (Header.gas_limit (header blk))
                               (Header.gas_limit parent_header) = true
       /\ (String.length (Header.extra_data (header blk)) <= 32)%nat
       /\ Header.timestamp parent_header < Header.timestamp (header blk))
  /\ (length (uncles blk) <= MAX_UNCLES)%nat
  /\ Forall (fun uncle => validate_uncle self blk uncle = Ok tt) (uncles blk)
  /\ (exists st, state self = Ok st
                 /\ State.is_key_exists st (Header.state_root (header blk)) = true)
  /\ Header.uncles_hash (header blk) = keccak (rlp_encode (uncles blk)).
Proof.
  split.
  - intros (Hparent & Hrest)%validate_block_ok_inv. split; [| exact Hrest].
    destruct Hparent as [Hgen | Hparent]; [by left |].
    destruct (is_genesis blk); [by left | right]. by apply validate_against_parent_ok.
  - intros (Hparent & Hcount & Huncles & (st & Hst & Hkey) & Hhash).
    rewrite validate_block_after_parent.
    + destruct (Nat.ltb_spec MAX_UNCLES (length (uncles blk))); [lia |]. py_step.
      apply for_each_ok in Huncles. rewrite Huncles. py_step. rewrite Hst. py_step.
      rewrite Hkey. py_step. rewrite Hhash, String.eqb_refl. reflexivity.
    + destruct (is_genesis blk); [done |]. cbn [negb].
      destruct Hparent as [? | Hparent]; [done |]. by apply validate_against_parent_ok.
Qed.

(** X10.  The genesis block cannot carry uncles: for a block of number 0
    with at most MAX_UNCLES uncles, the first of which has a number that is
    not negative, [validate_block] raises the validation failure of
    [validate_uncle] about the uncle's number. *)
Theorem validate_block_genesis_uncle self blk uncle rest :
  is_genesis blk = true ->
  uncles blk = uncle :: rest ->
  (length (uncles blk) <= MAX_UNCLES)%nat ->
  0 <= Header.block_number uncle ->
  validate_block self blk = Raise (err_uncle_number blk uncle).
Proof.
  intros Hgen Huncles Hcount Hnumber.
  rewrite validate_block_after_parent by by rewrite Hgen.
  destruct (Nat.ltb_spec MAX_UNCLES (length (uncles blk))); [lia |]. py_step.
  rewrite Huncles. cbn [for_each]. unfold validate_uncle at 1.
  unfold is_genesis in Hgen. apply Z.eqb_eq in Hgen.
  destruct (Z.geb_spec (Header.block_number uncle) (number blk)); [reflexivity | lia].
Qed.

(** X11.  The uncles are validated in the order of the list, and the failure
    of the first invalid one is the failure of [validate_block]: for a block
    that passes the parent-relative checks and has at most MAX_UNCLES uncles,
    if the uncles before [bad] are accepted and [bad] fails with [e], then
    [validate_block] raises [e], whatever the uncles after it are. *)
Theorem validate_block_first_invalid_uncle self blk good bad rest e :
  is_genesis blk = true \/ validate_against_parent self blk = Ok tt ->
  uncles blk = (good ++ bad :: rest)%list ->
  (length (uncles blk) <= MAX_UNCLES)%nat ->
  Forall (fun uncle => validate_uncle self blk uncle = Ok tt) good ->
  validate_uncle self blk bad = Raise e ->
  validate_block self blk = Raise e.
Proof.
  intros Hparent Huncles Hcount Hgood Hbad.
  rewrite validate_block_after_parent.
  - destruct (Nat.ltb_spec MAX_UNCLES (length (uncles blk))); [lia |]. py_step.
    rewrite Huncles, (for_each_first_failure _ _ _ _ _ Hgood Hbad). reflexivity.
  - destruct (is_genesis blk); [done |]. cbn [negb]. by destruct Hparent.
Qed.

(** Building the VM's state fails in two ways only: with the BlockNotFound
    of the lookup of the block's parent, or, for a VM class without a state
    class, with the AttributeError of [get_state_class]. *)
Lemma state_failure_kind self e :
  state self = Raise e ->
  (exists template args, e = BlockNotFound template args)
  \/ (e = err_no_state_class /\ state_class_is_set = false).
Proof.
  unfold state, get_state, get_prev_hashes, get_block_header_by_hash, get_state_class.
  cbn [default].
  destruct (String.eqb _ _); cbn.
  - destruct state_class_is_set; cbn; [done |]. intros [= <-]. by right.
  - destruct (headers (chaindb self) !! _); cbn.
    + destruct state_class_is_set; cbn; [done |]. intros [= <-]. by right.
    + intros [= <-]. left. by eexists _, _.
Qed.

Lemma validate_against_parent_failure_kind self blk e :
  validate_against_parent self blk = Raise e ->
  (exists template args, e = ValidationError template args)
  \/ (exists template args, e = BlockNotFound template args).
Proof.
  unfold validate_against_parent, get_parent_header, get_block_header_by_hash,
    validate_gas_limit, validate_length_lte.
  destruct (headers (chaindb self) !! _); cbn;
    [| intros [= <-]; right; by eexists _, _].
  repeat (case_match; cbn); intros [= <-]; left; by eexists _, _.
Qed.

(** X12.  [validate_block] fails in four ways only: with a validation
    failure; with the BlockNotFound of a header lookup (the block's parent,
    or the parent of the VM's own block when the VM's state is built); with
    the AttributeError of [get_state_class], when the VM class has no state
    class and the checks before the state is built have passed; or with the
    AttributeError for [uncle_hash], and then the header's uncles_hash is
    not the digest of the uncles while every other check passed. *)
Theorem validate_block_failures self blk e :
  validate_block self blk = Raise e ->
  (exists template args, e = ValidationError template args)
  \/ (exists template args, e = BlockNotFound template args)
  \/ (e = err_no_state_class
      /\ state_class_is_set = false
      /\ (length (uncles blk) <= MAX_UNCLES)%nat
      /\ Forall (fun uncle => validate_uncle self blk uncle = Ok tt) (uncles blk))
  \/ (e = AttributeError "'{0}' object has no attribute '{1}'"
                         [VStr "BlockHeader"; VStr "uncle_hash"]
      /\ Header.uncles_hash (header blk) <> keccak (rlp_encode (uncles blk))
      /\ (length (uncles blk) <= MAX_UNCLES)%nat
      /\ Forall (fun uncle => validate_uncle self blk uncle = Ok tt) (uncles blk)
      /\ exists st, state self = Ok st
                    /\ State.is_key_exists st (Header.state_root (header blk)) = true).
Proof.
  unfold validate_block.
  destruct (if negb (is_genesis blk) then validate_against_parent self blk else Ok tt)
    as [[] | e'] eqn:Hfirst; py_step.
  2:{ intros [= <-]. destruct (is_genesis blk); [done |]. cbn in Hfirst.
      destruct (validate_against_parent_failure_kind _ _ _ Hfirst) as [? | ?];
        [by left | right; by left]. }
  destruct (Nat.ltb_spec MAX_UNCLES (length (uncles blk))); py_step;
    [intros [= <-]; left; by eexists _, _ |].
  destruct (for_each (validate_uncle self blk) (uncles blk)) as [[] | e'] eqn:Huncles;
    py_step.
  2:{ intros [= <-]. left. apply for_each_failure in Huncles as (uncle & _ & Huncle).
      by eapply validate_uncle_failure. }
  apply for_each_ok in Huncles.
  destruct (state self) as [st | e'] eqn:Hst; py_step.
  2:{ intros [= <-]. right.
      destruct (state_failure_kind _ _ Hst) as [? | [-> Hunset]]; [by left |].
      right. left. repeat split; [done | lia | done]. }
  destruct (State.is_key_exists st _) eqn:Hkey; py_step;
    [| intros [= <-]; left; by eexists _, _].
  destruct (String.eqb_spec (keccak (rlp_encode (uncles blk)))
                            (Header.uncles_hash (header blk))) as [Heq | Hne]; py_step;
    [done |].
  intros [= <-]. right. right. right.
  repeat split; [congruence | lia | done | by exists st].
Qed.

End WithCollaborators.

Import (hints) Sample.

Lemma get_prev_hashes_bounded_witness :
  exists hashes,
    get_prev_hashes "h1" Sample.sample_db = Ok hashes /\ (length hashes <= 256)%nat.
Proof.
  exists ["h1"; "h0"]. split; [reflexivity |].
  exact (get_prev_hashes_bounded "h1" Sample.sample_db ["h1"; "h0"] eq_refl).
Defined.

Lemma get_prev_hashes_ancestors_witness :
  exists hashes,
    get_prev_hashes "h1" Sample.sample_db = Ok hashes
    /\ hashes !! 1%nat = Some "h0" /\ hashes !! 2%nat = None.
Proof.
  destruct (get_prev_hashes_ancestors "h1" Sample.sample_db Sample.header1)
    as (hashes & Hok & Hat).
  - discriminate.
  - reflexivity.
  - exists hashes. split; [exact Hok |]. split.
    + rewrite (Hat 1%nat). reflexivity.
    + rewrite (Hat 2%nat). reflexivity.
Defined.

Lemma validate_uncle_later_block_witness :
  validate_uncle Sample.sample_vm
                 {| header := Header.mkHeader "h1" "k" "miner" "root2" "" "" 0 1 900 5000 0
                                              102 "" "" "";
                    transactions := []; uncles := [] |}
                 Sample.uncle1 = Ok tt.
Proof.
  apply (validate_uncle_later_block Sample.sample_vm Sample.block2_with_uncle).
  - vm_compute. discriminate.
  - reflexivity.
Defined.

Lemma validate_block_genesis_uncle_witness :
  let genesis := {| header := Sample.header0; transactions := [];
                    uncles := [Sample.uncle1] |} in
  validate_block Sample.sample_vm genesis
  = Raise (err_uncle_number genesis Sample.uncle1).
Proof.
  intros genesis.
  apply (validate_block_genesis_uncle Sample.sample_vm genesis Sample.uncle1 []).
  - reflexivity.
  - reflexivity.
  - cbn. lia.
  - vm_compute. discriminate.
Defined.

Lemma validate_block_first_invalid_uncle_witness :
  let blk := {| header := Sample.header2; transactions := [];
                uncles := [Sample.uncle1; Sample.header2] |} in
  validate_block Sample.sample_vm blk = Raise (err_uncle_number blk Sample.header2).
Proof.
  intros blk.
  apply (validate_block_first_invalid_uncle Sample.sample_vm blk [Sample.uncle1]
                                            Sample.header2 []).
  - right. reflexivity.
  - reflexivity.
  - cbn. lia.
  - repeat constructor.
  - reflexivity.
Defined.

Lemma validate_block_failures_witness :
  exists template args,
    validate_block Sample.sample_vm
                   {| header := Sample.header2; transactions := [];
                      uncles := [Sample.uncle1; Sample.uncle1; Sample.uncle1] |}
    = Raise (ValidationError template args).
Proof.
  destruct (validate_block_failures
              Sample.sample_vm
              {| header := Sample.header2; transactions := [];
                 uncles := [Sample.uncle1; Sample.uncle1; Sample.uncle1] |}
              (ValidationError "Blocks may have a maximum of {0} uncles.  Found {1}."
                               [VInt 2; VInt 3]))
    as [(template & args & Heq) | [(template & args & [=]) | [[[=] _] | [[=] _]]]].
  - reflexivity.
  - exists template, args. rewrite <- Heq. reflexivity.
Defined.

End VMExtra.

(** ** The VM: packing and mining *)

Module PackExtra.
Import VM Mining HeaderFacts VMFacts VMExtra.

Section WithCollaborators.
Context `{Collaborators}.
Implicit Types (self : VM) (blk : Block) (kwargs : gmap string pyval).

(** The two ways [pack_block] ends on values the header can hold. *)
Lemma pack_block_cases self arg uncles_kw kwargs self' blk' r :
  pack_block self arg uncles_kw kwargs = Some (self', blk', r) ->
  self' = vm_with self arg blk'
  /\ ((blk' = with_uncles (block_of self arg) uncles_kw
       /\ r = Raise (err_unknown_fields (dom (overrides uncles_kw kwargs) ∖ known_fields)))
      \/ (exists hd',
             setattrs (header (block_of self arg)) (map_to_list (overrides uncles_kw kwargs))
             = Some hd'
             /\ blk' = {| header := hd'; transactions := transactions (block_of self arg);
                          uncles := uncles (with_uncles (block_of self arg) uncles_kw) |}
             /\ r = (validate_block self' blk';; Ok blk'))).
Proof.
  unfold pack_block, with_uncles, overrides.
  destruct uncles_kw as [us |]; cbn [header transactions uncles];
    (destruct (bool_decide _); cbn [negb];
     [ destruct (setattrs _ _) as [hd' |]; [| done];
       intros [= <- <- <-]; split; [done |]; right; by exists hd'
     | intros [= <- <- <-]; split; [done |]; by left ]).
Qed.

(** [pack_block] on the VM's own block is the call [mine_block] makes. *)
Lemma pack_block_own_block self uncles_kw kwargs :
  pack_block self OwnBlock uncles_kw kwargs
  = (fun packed => (fst packed, block (fst packed), snd packed))
      <$> pack_own_block self uncles_kw kwargs.
Proof.
  unfold pack_block, pack_own_block, block_of, vm_with.
  destruct uncles_kw as [us |]; cbn [header transactions uncles];
    (destruct (bool_decide _); cbn [negb]; [| reflexivity];
     by destruct (setattrs _ _)).
Qed.

Lemma setdefault_lookup kwargs key v :
  setdefault kwargs key v !! key = Some (default v (kwargs !! key)).
Proof.
  unfold setdefault. destruct (kwargs !! key) eqn:Hkey; cbn; [done |].
  apply lookup_insert_eq.
Qed.

(** The header after [setattrs] over a dictionary holds the dictionary's
    value under each of its keys. *)
Lemma setattrs_map_lookup (hd hd' : BlockHeader) kwargs key v :
  setattrs hd (map_to_list kwargs) = Some hd' ->
  kwargs !! key = Some v ->
  Header.getattr hd' key = Ok v.
Proof.
  intros Hset Hkey.
  destruct (setattrs_getattr _ _ _ (NoDup_fst_map_to_list kwargs) Hset) as [Hin _].
  apply Hin. by apply elem_of_map_to_list.
Qed.

Lemma setattrs_map_other (hd hd' : BlockHeader) kwargs key :
  setattrs hd (map_to_list kwargs) = Some hd' ->
  kwargs !! key = None ->
  Header.getattr hd' key = Header.getattr hd key.
Proof.
  intros Hset Hkey.
  destruct (setattrs_getattr _ _ _ (NoDup_fst_map_to_list kwargs) Hset) as [_ Hout].
  apply Hout. intros [[k v] [-> Hkv]]%list_elem_of_fmap.
  apply elem_of_map_to_list in Hkv. cbn in Hkey. congruence.
Qed.

(** When [validate_block] raises an AttributeError, the VM class has no
    state class and the error is that of [get_state_class], or the header's
    uncles_hash is not the digest of the uncles. *)
Lemma validate_block_attribute_error self blk template args :
  validate_block self blk = Raise (AttributeError template args) ->
  (AttributeError template args = err_no_state_class /\ state_class_is_set = false)
  \/ Header.uncles_hash (header blk) <> keccak (rlp_encode (uncles blk)).
Proof.
  intros Hraise.
  destruct (if negb (is_genesis blk) then validate_against_parent self blk else Ok tt)
    as [[] | e] eqn:Hfirst.
  - rewrite (validate_block_after_parent _ _ Hfirst) in Hraise. revert Hraise.
    destruct (Nat.ltb _ _); py_step; [done |].
    destruct (for_each (validate_uncle self blk) (uncles blk)) as [[] | e] eqn:Huncles;
      py_step.
    2:{ intros [= ->]. apply for_each_failure in Huncles as (uncle & _ & Huncle).
        by destruct (validate_uncle_failure _ _ _ _ Huncle) as (? & ? & ?). }
    destruct (state self) as [st | e] eqn:Hst; py_step.
    2:{ intros [= ->]. left.
        by destruct (state_failure_kind _ _ Hst) as [(? & ? & ?) | ?]. }
    destruct (State.is_key_exists st _); py_step; [| done].
    destruct (String.eqb_spec (keccak (rlp_encode (uncles blk)))
                              (Header.uncles_hash (header blk))); py_step; [done |].
    intros _. right. congruence.
  - unfold validate_block in Hraise. rewrite Hfirst in Hraise. injection Hraise as ->.
    destruct (is_genesis blk); [done |]. cbn in Hfirst.
    by destruct (validate_against_parent_failure_kind _ _ _ Hfirst)
      as [(? & ? & ?) | (? & ? & ?)].
Qed.

(** X13.  A block [pack_block] returns is the packed block, and it is a
    block [validate_block] accepts on the VM as the call leaves it, which
    for the VM's own block is the VM holding the packed block: in
    particular its header's uncles_hash is the digest of its uncles, it has
    at most MAX_UNCLES uncles, and its transactions are those of the block
    given. *)
Theorem pack_block_returns_valid self arg uncles_kw kwargs self' blk' b :
  pack_block self arg uncles_kw kwargs = Some (self', blk', Ok b) ->
  b = blk'
  /\ self' = vm_with self arg b
  /\ (arg = OwnBlock -> block self' = b)
  /\ validate_block self' b = Ok tt
  /\ Header.uncles_hash (header b) = keccak (rlp_encode (uncles b))
  /\ (length (uncles b) <= MAX_UNCLES)%nat
  /\ transactions b = transactions (block_of self arg).
Proof.
  intros [Hself [[_ [=]] | (hd' & _ & Hblk & Hr)]]%pack_block_cases.
  destruct (validate_block self' blk') as [[] | e] eqn:Hvalid; [| done].
  injection Hr as ->.
  destruct (validate_block_ok_inv _ _ Hvalid) as (_ & Hcount & _ & _ & Hhash).
  repeat split; try done.
  - intros ->. by rewrite Hself.
  - by rewrite Hblk.
Qed.

(** X14.  When uncles are given without an uncles_hash, [pack_block] stores
    the digest of the given uncles in the header, so the uncles_hash check of
    the validation cannot fail: the call ends in the configuration error, or
    the packed block has the given uncles and their digest and the result is
    not the AttributeError for [uncle_hash]; the one AttributeError it can
    be is that of [get_state_class], for a VM class without a state
    class. *)
Theorem pack_block_uncles_digest self arg us kwargs self' blk' r :
  kwargs !! "uncles_hash" = None ->
  pack_block self arg (Some us) kwargs = Some (self', blk', r) ->
  r = Raise (err_unknown_fields (dom (overrides (Some us) kwargs) ∖ known_fields))
  \/ (uncles blk' = us
      /\ Header.uncles_hash (header blk') = keccak (rlp_encode us)
      /\ r <> Raise (AttributeError "'{0}' object has no attribute '{1}'"
                                    [VStr "BlockHeader"; VStr "uncle_hash"])
      /\ forall template args,
          r = Raise (AttributeError template args) ->
          state_class_is_set = false /\ r = Raise err_no_state_class).
Proof.
  intros Hnone [Hself [[_ Hr] | (hd' & Hset & Hblk & Hr)]]%pack_block_cases;
    [by left | right].
  assert (Hhash : Header.uncles_hash hd' = keccak (rlp_encode us)).
  { pose proof (setattrs_map_lookup _ _ _ "uncles_hash" _ Hset
                  (setdefault_lookup kwargs "uncles_hash" _)) as Hget.
    rewrite Hnone in Hget. by injection Hget. }
  assert (Hattr : forall template args,
             r = Raise (AttributeError template args) ->
             state_class_is_set = false /\ r = Raise err_no_state_class).
  { intros template args Hattr. rewrite Hr in Hattr.
    destruct (validate_block self' blk') as [[] | e] eqn:Hvalid; [done |].
    injection Hattr as ->.
    destruct (validate_block_attribute_error _ _ _ _ Hvalid) as [[Heq Hunset] | Hne].
    - split; [exact Hunset |]. rewrite Hr. cbn. by rewrite Heq.
    - subst blk'. cbn in Hne. congruence. }
  subst blk'. split; [done |]. split; [done |]. split; [| exact Hattr].
  intros Huncle. by destruct (Hattr _ _ Huncle) as [_ ->].
Qed.

(** X15.  Without overrides [pack_block] leaves the block and the VM as
    they are and is [validate_block]: the block is returned when the
    validation accepts it, and the call fails with the validation's failure
    otherwise. *)
Theorem pack_block_no_overrides self arg :
  pack_block self arg None ∅
  = Some (self, block_of self arg,
          validate_block self (block_of self arg);; Ok (block_of self arg)).
Proof.
  unfold pack_block. rewrite dom_empty_L.
  rewrite bool_decide_eq_true_2 by set_solver. cbn [negb].
  rewrite map_to_list_empty. cbn [setattrs].
  destruct self as [db [hd txs us]], arg as [| [hd' txs' us']]; reflexivity.
Qed.

(** X16.  Uncles given together with an uncles_hash that is not their digest
    never yield a block: the explicit uncles_hash is kept, and the call
    fails. *)
Theorem pack_block_wrong_uncles_hash self arg us kwargs h self' blk' r :
  kwargs !! "uncles_hash" = Some (VBytes h) ->
  h <> keccak (rlp_encode us) ->
  pack_block self arg (Some us) kwargs = Some (self', blk', r) ->
  is_ok r = false /\ uncles blk' = us.
Proof.
  intros Hgiven Hwrong [Hself [[-> ->] | (hd' & Hset & Hblk & Hr)]]%pack_block_cases;
    [done |].
  assert (Hhash : Header.uncles_hash hd' = h).
  { pose proof (setattrs_map_lookup _ _ _ "uncles_hash" _ Hset
                  (setdefault_lookup kwargs "uncles_hash" _)) as Hget.
    rewrite Hgiven in Hget. by injection Hget. }
  split; [| by subst blk'].
  destruct (validate_block self' blk') as [[] | e] eqn:Hvalid; [| by subst r].
  destruct (validate_block_ok_inv _ _ Hvalid) as (_ & _ & _ & _ & Hdigest).
  subst blk'. cbn in Hdigest. congruence.
Qed.

(** *** mine_block *)



End WithCollaborators.

Import (hints) Sample.

Lemma pack_block_returns_valid_witness :
  Header.uncles_hash (header Sample.block2_with_uncle)
  = keccak (rlp_encode (uncles Sample.block2_with_uncle)).
Proof.
  apply (pack_block_returns_valid
           Sample.sample_vm OwnBlock (Some [Sample.uncle1]) ∅
           {| chaindb := Sample.sample_db; block := Sample.block2_with_uncle |}
           Sample.block2_with_uncle Sample.block2_with_uncle).
  reflexivity.
Defined.

Lemma pack_block_uncles_digest_witness :
  uncles Sample.block2_with_uncle = [Sample.uncle1]
  /\ Header.uncles_hash (header Sample.block2_with_uncle)
     = keccak (rlp_encode [Sample.uncle1]).
Proof.
  destruct (pack_block_uncles_digest
              Sample.sample_vm OwnBlock [Sample.uncle1] ∅
              {| chaindb := Sample.sample_db; block := Sample.block2_with_uncle |}
              Sample.block2_with_uncle (Ok Sample.block2_with_uncle))
    as [[=] | (Huncles & Hhash & _)].
  - reflexivity.
  - reflexivity.
  - split; [exact Huncles | exact Hhash].
Defined.

Lemma pack_block_wrong_uncles_hash_witness :
  exists self' blk' r,
    pack_block Sample.sample_vm (OtherBlock Sample.block2) (Some [Sample.uncle1])
               {[ "uncles_hash" := VBytes "wrong" ]} = Some (self', blk', r)
    /\ is_ok r = false.
Proof.
  eexists _, _, _. split; [reflexivity |].
  eapply (pack_block_wrong_uncles_hash Sample.sample_vm (OtherBlock Sample.block2)
                                       [Sample.uncle1]
                                       {[ "uncles_hash" := VBytes "wrong" ]} "wrong").
  - reflexivity.
  - discriminate.
  - reflexivity.
Defined.


End PackExtra.

(** ** The VM: stateless block creation, temporary state, gas *)

Module CreateExtra.
Import VM Mining VMFacts.

Section WithCollaborators.
Context `{Collaborators}.
Implicit Types (self : VM) (blk : Block) (vars : loop_vars)
         (packages : list (Transaction * gmap string string)).

(** *** create_block *)





(** A key of the accumulated entries stays one, turn after turn. *)
Lemma create_block_step_keeps prev_hashes vars package vars' key :
  fst (create_block_step prev_hashes vars package) = Ok vars' ->
  is_Some (recent_trie_nodes vars !! key) ->
  is_Some (recent_trie_nodes vars' !! key).
Proof.
  intros (_ & computation & result_block & _ & ->)%create_block_step_ok_inv [v Hkey].
  destruct (is_error computation); cbn [recent_trie_nodes]; [by exists v |].
  rewrite lookup_union, Hkey.
  destruct (State.writes (vm_state computation) !! key); by eexists.
Qed.

Lemma vars_after_keeps prev_hashes packages key : forall vars final,
  vars_after prev_hashes vars packages = Ok final ->
  is_Some (recent_trie_nodes vars !! key) ->
  is_Some (recent_trie_nodes final !! key).
Proof.
  induction packages as [| package rest IH]; intros vars final Hfinal Hkey.
  - by injection Hfinal as <-.
  - rewrite vars_after_cons in Hfinal.
    destruct (fst (create_block_step prev_hashes vars package)) as [vars' |] eqn:Hstep;
      [| done].
    revert Hfinal. py_step. intros Hfinal.
    eapply IH; [exact Hfinal |]. by eapply create_block_step_keeps.
Qed.

(** The entries a package's computation writes, when it reports no error, are
    in the accumulated entries after any longer run of packages. *)
Lemma vars_after_holds_writes prev_hashes init packages i n package key
      vars computation result_block final :
  packages !! i = Some package ->
  (i < n)%nat ->
  vars_after prev_hashes init (take i packages) = Ok vars ->
  returned (package_outcome prev_hashes vars package) = Ok (computation, result_block) ->
  is_error computation = false ->
  is_Some (State.writes (vm_state computation) !! key) ->
  vars_after prev_hashes init (take n packages) = Ok final ->
  is_Some (recent_trie_nodes final !! key).
Proof.
  intros Hi Hlt Hvars Hreturned Hok [v Hkey] Hfinal.
  destruct (vars_after_take_ok _ _ _ _ init (S i) Hfinal) as (vars' & Hnext & Hrest);
    [lia |].
  eapply vars_after_keeps; [exact Hrest |].
  rewrite (vars_after_snoc _ _ _ _ _ Hi), Hvars in Hnext. revert Hnext. py_step.
  intros Hnext.
  destruct (create_block_step_ok_inv _ _ _ _ Hnext)
    as (_ & computation' & result_block' & Hreturned' & ->).
  rewrite Hreturned in Hreturned'. injection Hreturned' as <- <-.
  rewrite Hok. cbn [recent_trie_nodes]. rewrite lookup_union, Hkey.
  destruct (recent_trie_nodes vars !! key); by eexists.
Qed.

(** X20.  What a transaction writes stays visible: when the computation of
    package i reports no error and writes an entry under a key, the store of
    every later package's transaction has an entry under that key, and so
    has the store [finalize_block] runs on. *)
Theorem create_block_writes_visible packages prev_hashes coinbase parent_header
        i package key vars computation result_block :
  packages !! i = Some package ->
  let init := create_block_init coinbase parent_header in
  vars_after prev_hashes init (take i packages) = Ok vars ->
  returned (package_outcome prev_hashes vars package) = Ok (computation, result_block) ->
  is_error computation = false ->
  is_Some (State.writes (vm_state computation) !! key) ->
  forall j c, (i < j)%nat ->
              snd (create_block packages prev_hashes coinbase parent_header) !! j = Some c ->
              match c with
              | ApplyTransaction store _ _ _ _ _ => is_Some (store !! key)
              | FinalizeBlock store _ _ _ _ => is_Some (store !! key)
              end.
Proof.
  intros Hi init Hvars Hreturned Hok Hkey j c Hlt Hc.
  destruct block_class_is_set eqn:Hblock;
    [| by rewrite (create_block_no_block_class _ _ _ _ Hblock) in Hc].
  destruct state_class_is_set eqn:Hset;
    [| by rewrite (create_block_unset _ _ _ _ Hblock Hset) in Hc].
  rewrite (create_block_run _ _ _ _ Hblock Hset) in Hc. fold init in Hc.
  cbn zeta in Hc.
  assert (Hloop : forall c', snd (create_block_loop prev_hashes init packages) !! j = Some c' ->
                             match c' with
                             | ApplyTransaction store _ _ _ _ _ => is_Some (store !! key)
                             | FinalizeBlock store _ _ _ _ => is_Some (store !! key)
                             end).
  { intros c' (pj & vars_j & _ & Hvars_j & ->)%create_block_loop_calls_inv.
    destruct (vars_after_holds_writes _ _ _ _ _ _ _ _ _ _ _ Hi Hlt Hvars Hreturned Hok
                                      Hkey Hvars_j) as [v Hv].
    unfold package_call, package_store. rewrite lookup_union, Hv.
    by destruct (snd pj !! key); eexists. }
  destruct (vars_after prev_hashes init packages) as [final | e] eqn:Hfinal;
    cbn [snd] in Hc; [| by apply Hloop].
  apply lookup_app_Some in Hc as [Hc | [Hge Hc]]; [by apply Hloop |].
  apply list_lookup_singleton_Some in Hc as [_ <-]. unfold finalize_call.
  rewrite <- (firstn_all packages) in Hfinal.
  eapply (vars_after_holds_writes _ _ _ _ (length packages));
    [exact Hi | by eapply lookup_lt_Some | exact Hvars | exact Hreturned | exact Hok
    | exact Hkey | exact Hfinal].
Qed.

(** *** get_cumulative_gas_used *)

(** X21.  For a block that has transactions and whose receipt list is empty,
    [get_cumulative_gas_used] raises IndexError. *)
Theorem get_cumulative_gas_used_no_receipts self blk :
  transactions blk <> [] ->
  get_receipts blk (chaindb self) = [] ->
  get_cumulative_gas_used self blk = Raise (IndexError "list index out of range").
Proof.
  intros Htxs Hnone. unfold get_cumulative_gas_used. rewrite Hnone.
  by destruct (transactions blk).
Qed.

(** *** state_in_temp_block *)

(** X22.  When the enclosed code returns normally and has left the snapshot
    stack in place up to the snapshot of the entry, the state
    [state_in_temp_block] leaves behind has the account view of the entry:
    what the enclosed code did to the accounts is undone, and its value is
    handed on. *)
Theorem state_in_temp_block_reverts {A} self (body : VMState -> VMState * result A)
        st snap st' a :
  state_in_temp_block_enter self = Ok (st, snap) ->
  body st = (st', Ok a) ->
  State.journal st' !! snap = State.journal st !! snap ->
  exists final,
    state_in_temp_block self body = Ok (final, Ok a)
    /\ State.state_db final = State.state_db st
    /\ forall address,
        State.get_balance (State.state_db final) address
        = State.get_balance (State.state_db st) address.
Proof.
  intros Henter Hbody Hkeep.
  pose proof (state_in_temp_block_enter_snapshot _ _ _ Henter) as Hsnap.
  unfold state_in_temp_block. rewrite Henter. cbn. rewrite Hbody.
  eexists. split; [reflexivity |].
  unfold State.revert. rewrite Hkeep, Hsnap. cbn. split; [reflexivity | done].
Qed.

(** X23.  When the parent of the VM's block is neither the genesis parent
    hash nor in the store, entering [state_in_temp_block] raises the
    BlockNotFound of the ancestor lookup, and the enclosed code is not
    run. *)
Theorem state_in_temp_block_unknown_parent {A} self
        (body : VMState -> VMState * result A) :
  Header.parent_hash (header (block self)) <> GENESIS_PARENT_HASH ->
  headers (chaindb self) !! Header.parent_hash (header (block self)) = None ->
  state_in_temp_block self body
  = Raise (BlockNotFound "No block with hash {0} found"
                         [VBytes (Header.parent_hash (header (block self)))]).
Proof.
  intros Hne Hmissing.
  unfold state_in_temp_block, state_in_temp_block_enter, previous_hashes, get_prev_hashes,
    get_block_header_by_hash.
  destruct (String.eqb_spec (Header.parent_hash (header (block self))) GENESIS_PARENT_HASH);
    [done |].
  by rewrite Hmissing.
Qed.

End WithCollaborators.

Import (hints) Sample.



Lemma create_block_writes_visible_witness :
  match snd (create_block [(Sample.tx_of 3 1 1 0 "a", ∅); (Sample.tx_of 3 1 2 0 "c", ∅)]
                          [] "miner" Sample.header1) !! 1%nat with
  | Some (ApplyTransaction store _ _ _ _ _) => is_Some (store !! "a")
  | _ => False
  end.
Proof.
  exact (@create_block_writes_visible
           Sample.sample_collaborators
           [(Sample.tx_of 3 1 1 0 "a", ∅); (Sample.tx_of 3 1 2 0 "c", ∅)]
           [] "miner" Sample.header1 0 (Sample.tx_of 3 1 1 0 "a", ∅) "a" _ _ _
           eq_refl eq_refl eq_refl eq_refl (ex_intro _ "written" eq_refl) 1%nat _
           (Nat.lt_0_succ 0) eq_refl).
Defined.

Lemma get_cumulative_gas_used_no_receipts_witness :
  let collaborators :=
    {| keccak := keccak; rlp_encode := rlp_encode; header_hash := header_hash;
       GENESIS_PARENT_HASH := GENESIS_PARENT_HASH; ZERO_ADDRESS := ZERO_ADDRESS;
       CREATE_CONTRACT_ADDRESS := CREATE_CONTRACT_ADDRESS; MAX_UNCLES := MAX_UNCLES;
       MAX_PREV_HEADER_DEPTH := MAX_PREV_HEADER_DEPTH;
       gas_limit_continuous := gas_limit_continuous;
       generate_header_from_parent_header := generate_header_from_parent_header;
       get_receipts := fun _ _ => [];
       account_view := account_view;
       generate_contract_address := generate_contract_address;
       block_class_is_set := block_class_is_set;
       state_class_is_set := state_class_is_set;
       state_apply_transaction := state_apply_transaction;
       state_finalize_block := state_finalize_block;
       apply_message := apply_message; apply_create_message := apply_create_message |} in
  @get_cumulative_gas_used collaborators Sample.sample_vm
    {| header := Sample.header2; transactions := [Sample.tx_of 3 1 1 0 ""]; uncles := [] |}
  = Raise (IndexError "list index out of range").
Proof.
  intros collaborators.
  apply (@get_cumulative_gas_used_no_receipts collaborators).
  - discriminate.
  - reflexivity.
Defined.

Lemma state_in_temp_block_reverts_witness :
  exists st snap final,
    state_in_temp_block_enter Sample.sample_vm = Ok (st, snap)
    /\ state_in_temp_block Sample.sample_vm Sample.pay_then_return = Ok (final, Ok tt)
    /\ State.state_db final = State.state_db st.
Proof.
  eexists _, _.
  edestruct (state_in_temp_block_reverts Sample.sample_vm Sample.pay_then_return)
    as (final & Hrun & Hdb & _).
  - reflexivity.
  - reflexivity.
  - reflexivity.
  - exists final. split; [reflexivity |]. split; [exact Hrun | exact Hdb].
Defined.

Lemma state_in_temp_block_unknown_parent_witness :
  state_in_temp_block {| chaindb := {| kv_store := ∅; headers := ∅ |};
                         block := Sample.block2 |} Sample.pay_then_return
  = Raise (BlockNotFound "No block with hash {0} found" [VBytes "h1"]).
Proof.
  apply (state_in_temp_block_unknown_parent
           {| chaindb := {| kv_store := ∅; headers := ∅ |}; block := Sample.block2 |}
           Sample.pay_then_return).
  - discriminate.
  - reflexivity.
Defined.

End CreateExtra.

(** ** The Petersburg fork *)

Module PetersburgExtra.
Import Petersburg.

Lemma account_of_delta_zero (db : gmap string Account) (beneficiary address : string) :
  State.account_of (State.delta_balance db beneficiary 0) address
  = State.account_of db address.
Proof.
  unfold State.delta_balance, State.set_balance, State.get_balance, State.account_of.
  destruct (decide (beneficiary = address)) as [-> | Hne].
  - rewrite lookup_insert_eq. cbn. rewrite Z.add_0_r.
    by destruct (default State.empty_account (db !! address)).
  - by rewrite lookup_insert_ne.
Qed.

(** X24.  With the devfund reward of constants.py, the devfund credit of
    [finalize_block] changes no account: the balance, nonce, code and storage
    of every address are after the call what they were before it, and the
    gas counters and receipts of the state are untouched. *)
Theorem finalize_block_accounts (st : VMState) (blk : Block) (address : string) :
  let st' := fst (finalize_block st blk) in
  State.account_of (State.state_db st') address
  = State.account_of (State.state_db st) address
  /\ State.get_balance (State.state_db st') address
     = State.get_balance (State.state_db st) address
  /\ State.get_nonce (State.state_db st') address
     = State.get_nonce (State.state_db st) address
  /\ State.gas_used st' = State.gas_used st
  /\ State.receipts st' = State.receipts st.
Proof.
  unfold finalize_block, get_devfund_reward, EIP1789_DEVFUND_REWARD, State.get_balance,
    State.get_nonce, State.with_state_db.
  cbn [fst State.state_db State.gas_used State.receipts].
  by rewrite account_of_delta_zero.
Qed.

End PetersburgExtra.
